(** * System configuration collector (sysconfig_windows.py)

    A shallow embedding of the script that snapshots the host's OS, CPU,
    memory, disk, network and environment state into a YAML file, and the
    properties of its collection and writing stages.

    The embedding follows the Python source line by line:
    - every call into [platform], [psutil], [os.environ], [datetime], [open]
      and [yaml] is an oracle of the [World] and is recorded in a trace;
    - [try: ... except Exception as e: ...] is [try_except] in a small
      state-and-exception monad;
    - dictionaries are insertion-ordered association lists, as CPython's are;
    - Python floats are IEEE binary64 numbers (Rocq's primitive floats). *)

From Stdlib Require Import ZArith Floats.
From stdpp Require Import gmap strings list.

Open Scope Z_scope.

(** ** Python values *)

(** Instances of [Exception]; [exn_str] is what [str(e)] and [f"{e}"]
    produce. *)
Record exn := Exn { exn_str : string }.

(** What a call into a library does: it returns a value or raises. *)
Inductive outcome (A : Type) :=
| Returns (a : A)
| Raises (e : exn).
Arguments Returns {A} a.
Arguments Raises {A} e.

(** The data the snapshot is made of ([None], [str], [int], [float], [list],
    [dict]); a [dict] keeps its insertion order. *)
#[warnings="-register-all"]
Inductive value :=
| VNone
| VStr (s : string)
| VInt (z : Z)
| VFloat (f : float)
| VList (l : list value)
| VDict (d : list (string * value)).

Definition dict := list (string * value).

(** [d[k] = v]: an existing key keeps its position, a new key goes last. *)
Fixpoint dict_set (d : dict) (k : string) (v : value) : dict :=
  match d with
  | [] => [(k, v)]
  | (k', v') :: rest =>
      if String.eqb k' k then (k', v) :: rest
      else (k', v') :: dict_set rest k v
  end.

Fixpoint dict_get (d : dict) (k : string) : option value :=
  match d with
  | [] => None
  | (k', v') :: rest => if String.eqb k' k then Some v' else dict_get rest k
  end.

Definition dict_keys (d : dict) : list string := map fst d.

(** [dict(os.environ)]: the variables, inserted one by one. *)
Definition dict_of_environ (environ : list (string * string)) : dict :=
  fold_left (fun d kv => dict_set d (fst kv) (VStr (snd kv))) environ [].

Definition opt_str (o : option string) : value :=
  match o with Some s => VStr s | None => VNone end.

Definition opt_int (o : option Z) : value :=
  match o with Some z => VInt z | None => VNone end.

(** ** Python arithmetic on floats *)

Module PyFloat.

(** [float(z)]: the binary64 number nearest to [z]. *)
Definition of_Z (z : Z) : float :=
  SF2Prim (binary_normalize prec emax z 0 false).

(** [a / b] on two [int]s.  CPython returns the correctly rounded quotient;
    the IEEE division of the two converted operands is that quotient
    whenever both operands are exactly representable (below 2^53) and
    whenever the divisor is a power of two, which covers every use in the
    script (the divisor is always [1024 ** 2]). *)
Definition py_truediv (a b : Z) : float :=
  (of_Z a / of_Z b)%float.

(** [num / den] rounded to the nearest integer, ties to the even one
    ([den] positive). *)
Definition round_half_even (num den : Z) : Z :=
  let q := num / den in
  let r := num mod den in
  if 2 * r <? den then q
  else if den <? 2 * r then q + 1
  else if Z.even q then q else q + 1.

(** [round(x, ndigits)] for [ndigits >= 0].  CPython rounds the exact
    binary value of [x] to [ndigits] decimals (ties to even) and returns
    the float nearest to that decimal; infinities, NaN and zeros round to
    themselves. *)
Definition py_round (x : float) (ndigits : Z) : float :=
  match Prim2SF x with
  | S754_finite s m e =>
      let scale := 10 ^ ndigits in
      let k :=
        if 0 <=? e then round_half_even (Z.pos m * 2 ^ e * scale) 1
        else round_half_even (Z.pos m * scale) (2 ^ (- e)) in
      let r := (of_Z k / of_Z scale)%float in
      if s then (- r)%float else r
  | _ => x
  end.

End PyFloat.
Import PyFloat.

(** ** The host: what the libraries answer *)

(** [psutil.cpu_freq()]: [scpufreq(current, min, max)]. *)
Record scpufreq := { freq_current : float; freq_min : float; freq_max : float }.

(** [psutil.virtual_memory()]. *)
Record svmem :=
  { vm_total : Z; vm_available : Z; vm_used : Z; vm_percent : float }.

(** An element of [psutil.disk_partitions()]. *)
Record sdiskpart :=
  { device : string; mountpoint : string; fstype : string; opts : string }.

(** [psutil.disk_usage(path)]. *)
Record sdiskusage :=
  { du_total : Z; du_used : Z; du_free : Z; du_percent : float }.

(** An address of [psutil.net_if_addrs()]; [family_str] is [str(addr.family)]. *)
Record snicaddr :=
  { family_str : string;
    address : option string;
    netmask : option string;
    broadcast : option string;
    ptp : option string }.

Record Platform :=
  { platform_system : outcome string;
    platform_release : outcome string;
    platform_version : outcome string;
    platform_machine : outcome string;
    platform_processor : outcome string }.

Record Psutil :=
  { cpu_freq : outcome (option scpufreq);
    cpu_count : bool -> outcome (option Z);
    cpu_percent : Z -> outcome float;
    virtual_memory : outcome svmem;
    disk_partitions : outcome (list sdiskpart);
    disk_usage : string -> outcome sdiskusage;
    net_if_addrs : outcome (list (string * list snicaddr)) }.

(** The outcome of [yaml.dump(config, file, ...)]: the text that reached the
    file and whether the call returned. *)
Record Dumped := { dumped_text : string; dumped_outcome : outcome unit }.

Record World :=
  { platform : Platform;
    (** [None] when [import psutil] raised [ImportError]. *)
    psutil : option Psutil;
    (** [false] when [import yaml] raised [ImportError]. *)
    yaml_importable : bool;
    os_environ : outcome (list (string * string));
    datetime_now_isoformat : outcome string;
    open_w : string -> outcome unit;
    yaml_dump : dict -> Dumped;
    file_close : string -> outcome unit }.

(** ** Effects: a trace of the calls made, standard output, the files *)

Inductive Call :=
| CallPlatformSystem
| CallPlatformRelease
| CallPlatformVersion
| CallPlatformMachine
| CallPlatformProcessor
| CallCpuFreq
| CallCpuCount (logical : bool)
| CallCpuPercent (interval : Z)
| CallVirtualMemory
| CallDiskPartitions
| CallDiskUsage (path : string)
| CallNetIfAddrs
| CallEnviron
| CallNow
| CallOpen (path : string)
| CallYamlDump (path : string)
| CallClose (path : string).

Record State :=
  { st_trace : list Call;
    st_stdout : list string;
    st_files : gmap string string }.

(** How a piece of Python ends: normally, with an [Exception], or with
    [SystemExit] ([sys.exit(code)]), which [except Exception] does not
    catch. *)
Inductive result (A : Type) :=
| Ok (a : A)
| Raise (e : exn)
| Exit (code : Z).
Arguments Ok {A} a.
Arguments Raise {A} e.
Arguments Exit {A} code.

Definition M (A : Type) : Type := State -> State * result A.

Definition ret {A} (a : A) : M A := fun s => (s, Ok a).

Definition bind {A B} (m : M A) (k : A -> M B) : M B :=
  fun s =>
    match m s with
    | (s', Ok a) => k a s'
    | (s', Raise e) => (s', Raise e)
    | (s', Exit c) => (s', Exit c)
    end.

Notation "x <- c1 ;; c2" := (bind c1 (fun x => c2))
  (at level 100, c1 at next level, right associativity).
Notation "c1 ;;; c2" := (bind c1 (fun _ => c2))
  (at level 100, right associativity).

(** [try: body except Exception as e: handler e]. *)
Definition try_except {A} (body : M A) (handler : exn -> M A) : M A :=
  fun s =>
    match body s with
    | (s', Raise e) => handler e s'
    | other => other
    end.

Definition log (c : Call) (s : State) : State :=
  {| st_trace := st_trace s ++ [c];
     st_stdout := st_stdout s;
     st_files := st_files s |}.

Definition lift {A} (o : outcome A) : M A :=
  fun s =>
    match o with
    | Returns a => (s, Ok a)
    | Raises e => (s, Raise e)
    end.

(** A call into a library: recorded, then it returns or raises. *)
Definition call {A} (c : Call) (o : outcome A) : M A :=
  fun s => lift o (log c s).

Definition print (line : string) : M unit :=
  fun s =>
    ({| st_trace := st_trace s;
        st_stdout := st_stdout s ++ [line];
        st_files := st_files s |}, Ok tt).

Definition sys_exit {A} (code : Z) : M A := fun s => (s, Exit code).

(** Opening with mode ['w'] creates the file or truncates it. *)
Definition truncate (path : string) : M unit :=
  fun s =>
    ({| st_trace := st_trace s;
        st_stdout := st_stdout s;
        st_files := <[path := ""]> (st_files s) |}, Ok tt).

Definition file_write (path text : string) : M unit :=
  fun s =>
    ({| st_trace := st_trace s;
        st_stdout := st_stdout s;
        st_files := <[path := default "" (st_files s !! path) +:+ text]> (st_files s) |},
     Ok tt).

(** [yaml.dump(config, file, default_flow_style=False, sort_keys=False)]:
    the text the serializer produced reaches the file, whole when the call
    returns and up to the fault when it raises. *)
Definition dump_to (w : World) (config : dict) (path : string) : M unit :=
  fun s =>
    match file_write path (dumped_text (yaml_dump w config))
            (log (CallYamlDump path) s) with
    | (s', _) => lift (dumped_outcome (yaml_dump w config)) s'
    end.

(** [with open(path, 'w') as file: body]: the file is closed on every way
    out of [body]; a fault while closing replaces the way [body] ended. *)
Definition with_open_w {A} (w : World) (path : string) (body : M A) : M A :=
  call (CallOpen path) (open_w w path) ;;;
  truncate path ;;;
  fun s =>
    match body s with
    | (s', r) =>
        match file_close w path with
        | Returns _ => (log (CallClose path) s', r)
        | Raises e => (log (CallClose path) s', Raise e)
        end
    end.

(** ** The collector *)

Module SystemConfigCollector.

Definition unavailable : string := "psutil module not available".

(** [round(n / (1024 ** 2), 2)]. *)
Definition to_mb (n : Z) : float := py_round (py_truediv n (1024 ^ 2)) 2.

(** The body of the [for partition in partitions] loop and the loop. *)
Definition partition_record (ps : Psutil) (partition : sdiskpart) : M value :=
  try_except
    (usage <- call (CallDiskUsage (mountpoint partition))
                   (disk_usage ps (mountpoint partition)) ;;
     ret (VDict
            [("device", VStr (device partition));
             ("mountpoint", VStr (mountpoint partition));
             ("fstype", VStr (fstype partition));
             ("opts", VStr (opts partition));
             ("total_mb", VFloat (to_mb (du_total usage)));
             ("used_mb", VFloat (to_mb (du_used usage)));
             ("free_mb", VFloat (to_mb (du_free usage)));
             ("percentage", VFloat (du_percent usage))]))
    (fun e =>
       ret (VDict
              [("device", VStr (device partition));
               ("error", VStr (exn_str e))])).

Fixpoint disk_loop (ps : Psutil) (partitions : list sdiskpart)
    (disk_info : list value) : M (list value) :=
  match partitions with
  | [] => ret disk_info
  | partition :: rest =>
      partition_data <- partition_record ps partition ;;
      disk_loop ps rest (disk_info ++ [partition_data])
  end.

(** The inner [for addr in addrs] loop and the loop over the interfaces. *)
Definition addr_record (addr : snicaddr) : value :=
  VDict
    [("family", VStr (family_str addr));
     ("address", opt_str (address addr));
     ("netmask", opt_str (netmask addr));
     ("broadcast", opt_str (broadcast addr));
     ("ptp", opt_str (ptp addr))].

Fixpoint addr_loop (addrs : list snicaddr) (addr_list : list value)
    : list value :=
  match addrs with
  | [] => addr_list
  | addr :: rest => addr_loop rest (addr_list ++ [addr_record addr])
  end.

Fixpoint net_loop (interfaces : list (string * list snicaddr))
    (net_info : dict) : dict :=
  match interfaces with
  | [] => net_info
  | (interface, addrs) :: rest =>
      net_loop rest (dict_set net_info interface (VList (addr_loop addrs [])))
  end.

Definition collect_os (w : World) (config : dict) : M dict :=
  system <- call CallPlatformSystem (platform_system (platform w)) ;;
  release <- call CallPlatformRelease (platform_release (platform w)) ;;
  version <- call CallPlatformVersion (platform_version (platform w)) ;;
  machine <- call CallPlatformMachine (platform_machine (platform w)) ;;
  processor <- call CallPlatformProcessor (platform_processor (platform w)) ;;
  ret (dict_set config "os"
         (VDict
            [("system", VStr system);
             ("release", VStr release);
             ("version", VStr version);
             ("machine", VStr machine);
             ("processor", VStr processor)])).

Definition collect_cpu (w : World) (config : dict) : M dict :=
  match psutil w with
  | Some ps =>
      try_except
        (cpu_freq <- call CallCpuFreq (cpu_freq ps) ;;
         physical_cores <- call (CallCpuCount false) (cpu_count ps false) ;;
         total_cores <- call (CallCpuCount true) (cpu_count ps true) ;;
         let max_frequency_mhz :=
           match cpu_freq with Some f => VFloat (freq_max f) | None => VNone end in
         let min_frequency_mhz :=
           match cpu_freq with Some f => VFloat (freq_min f) | None => VNone end in
         let current_frequency_mhz :=
           match cpu_freq with Some f => VFloat (freq_current f) | None => VNone end in
         cpu_usage_percent <- call (CallCpuPercent 1) (cpu_percent ps 1) ;;
         ret (dict_set config "cpu"
                (VDict
                   [("physical_cores", opt_int physical_cores);
                    ("total_cores", opt_int total_cores);
                    ("max_frequency_mhz", max_frequency_mhz);
                    ("min_frequency_mhz", min_frequency_mhz);
                    ("current_frequency_mhz", current_frequency_mhz);
                    ("cpu_usage_percent", VFloat cpu_usage_percent)])))
        (fun e =>
           ret (dict_set config "cpu"
                  (VStr ("Error collecting CPU info: " +:+ exn_str e))))
  | None => ret (dict_set config "cpu" (VStr unavailable))
  end.

Definition collect_memory (w : World) (config : dict) : M dict :=
  match psutil w with
  | Some ps =>
      try_except
        (virtual_mem <- call CallVirtualMemory (virtual_memory ps) ;;
         ret (dict_set config "memory"
                (VDict
                   [("total_mb", VFloat (to_mb (vm_total virtual_mem)));
                    ("available_mb", VFloat (to_mb (vm_available virtual_mem)));
                    ("used_mb", VFloat (to_mb (vm_used virtual_mem)));
                    ("percentage", VFloat (vm_percent virtual_mem))])))
        (fun e =>
           ret (dict_set config "memory"
                  (VStr ("Error collecting memory info: " +:+ exn_str e))))
  | None => ret (dict_set config "memory" (VStr unavailable))
  end.

Definition collect_disk (w : World) (config : dict) : M dict :=
  match psutil w with
  | Some ps =>
      try_except
        (partitions <- call CallDiskPartitions (disk_partitions ps) ;;
         disk_info <- disk_loop ps partitions [] ;;
         ret (dict_set config "disk" (VList disk_info)))
        (fun e =>
           ret (dict_set config "disk"
                  (VStr ("Error collecting disk info: " +:+ exn_str e))))
  | None => ret (dict_set config "disk" (VStr unavailable))
  end.

Definition collect_network (w : World) (config : dict) : M dict :=
  match psutil w with
  | Some ps =>
      try_except
        (let net_info := [] in
         interfaces <- call CallNetIfAddrs (net_if_addrs ps) ;;
         let net_info := net_loop interfaces net_info in
         ret (dict_set config "network" (VDict net_info)))
        (fun e =>
           ret (dict_set config "network"
                  (VStr ("Error collecting network info: " +:+ exn_str e))))
  | None => ret (dict_set config "network" (VStr unavailable))
  end.

Definition collect_environment (w : World) (config : dict) : M dict :=
  try_except
    (environ <- call CallEnviron (os_environ w) ;;
     ret (dict_set config "environment" (VDict (dict_of_environ environ))))
    (fun e =>
       ret (dict_set config "environment"
              (VStr ("Error collecting environment variables: " +:+ exn_str e)))).

Definition collect_timestamp (w : World) (config : dict) : M dict :=
  timestamp <- call CallNow (datetime_now_isoformat w) ;;
  ret (dict_set config "timestamp" (VStr timestamp)).

Definition gather_info (w : World) : M dict :=
  let config := [] in
  config <- collect_os w config ;;
  config <- collect_cpu w config ;;
  config <- collect_memory w config ;;
  config <- collect_disk w config ;;
  config <- collect_network w config ;;
  config <- collect_environment w config ;;
  config <- collect_timestamp w config ;;
  ret config.

Definition write_config (w : World) (config : dict) (file_path : string)
    : M unit :=
  try_except
    (with_open_w w file_path (dump_to w config file_path) ;;;
     print ("Configuration file successfully saved to " +:+ file_path))
    (fun e => print ("Failed to write configuration file: " +:+ exn_str e)).

End SystemConfigCollector.
Import SystemConfigCollector.

(** ** The entry point *)

Definition default_output_file : string := "system_config.yaml".

(** [sys.argv[i]]. *)
Definition argv_index (argv : list string) (i : nat) : M string :=
  match argv !! i with
  | Some a => ret a
  | None => fun s => (s, Raise (Exn "list index out of range"))
  end.

Definition main (w : World) (argv : list string) : M unit :=
  try_except
    (config_data <- gather_info w ;;
     let output_file := default_output_file in
     output_file <- (if (1 <? length argv)%nat then argv_index argv 1
                     else ret output_file) ;;
     write_config w config_data output_file)
    (fun e =>
       print ("An error occurred: " +:+ exn_str e) ;;;
       sys_exit 1).

(** The module body, run as [__main__]: the import guards, then [main()]. *)
Definition script (w : World) (argv : list string) : M unit :=
  (if yaml_importable w then ret tt
   else
     print "PyYAML is not installed. Please install it using 'pip install PyYAML'" ;;;
     sys_exit 1) ;;;
  main w argv.

Definition initial (files : gmap string string) : State :=
  {| st_trace := []; st_stdout := []; st_files := files |}.

(** The exit status of the interpreter: 0 when the module body ends, the
    code of [sys.exit], 1 for an exception nobody caught. *)
Definition exit_status {A} (r : result A) : Z :=
  match r with
  | Ok _ => 0
  | Exit code => code
  | Raise _ => 1
  end.

Definition run (w : World) (argv : list string) (files : gmap string string)
    : State * result unit :=
  script w argv (initial files).

(** ** What each section binds, as a function of the host *)

(** These functions restate, section by section, the value a section leaves
    under its key and the calls it makes; the lemmas of the next part prove
    that the collector computes exactly them. *)

Definition extend (s : State) (t : list Call) : State :=
  {| st_trace := st_trace s ++ t;
     st_stdout := st_stdout s;
     st_files := st_files s |}.

Definition returns {A} (o : outcome A) : Prop :=
  match o with Returns _ => True | Raises _ => False end.

(** The platform-identification calls all return. *)
Definition platform_available (w : World) : Prop :=
  returns (platform_system (platform w)) /\
  returns (platform_release (platform w)) /\
  returns (platform_version (platform w)) /\
  returns (platform_machine (platform w)) /\
  returns (platform_processor (platform w)).

(** Reading the clock and formatting it returns. *)
Definition clock_available (w : World) : Prop :=
  returns (datetime_now_isoformat w).

Definition error_value (prefix : string) (e : exn) : value :=
  VStr (prefix +:+ exn_str e).

Definition freq_field (proj : scpufreq -> float) (f : option scpufreq) : value :=
  match f with Some f => VFloat (proj f) | None => VNone end.

(** The first fault of the CPU section, if any. *)
Definition cpu_fault (ps : Psutil) : option exn :=
  match cpu_freq ps with
  | Raises e => Some e
  | Returns _ =>
      match cpu_count ps false with
      | Raises e => Some e
      | Returns _ =>
          match cpu_count ps true with
          | Raises e => Some e
          | Returns _ =>
              match cpu_percent ps 1 with
              | Raises e => Some e
              | Returns _ => None
              end
          end
      end
  end.

Definition cpu_value (ps : Psutil) : value :=
  match cpu_freq ps with
  | Raises e => error_value "Error collecting CPU info: " e
  | Returns f =>
      match cpu_count ps false with
      | Raises e => error_value "Error collecting CPU info: " e
      | Returns physical =>
          match cpu_count ps true with
          | Raises e => error_value "Error collecting CPU info: " e
          | Returns total =>
              match cpu_percent ps 1 with
              | Raises e => error_value "Error collecting CPU info: " e
              | Returns usage =>
                  VDict
                    [("physical_cores", opt_int physical);
                     ("total_cores", opt_int total);
                     ("max_frequency_mhz", freq_field freq_max f);
                     ("min_frequency_mhz", freq_field freq_min f);
                     ("current_frequency_mhz", freq_field freq_current f);
                     ("cpu_usage_percent", VFloat usage)]
              end
          end
      end
  end.

Definition cpu_calls (ps : Psutil) : list Call :=
  CallCpuFreq ::
  match cpu_freq ps with
  | Raises _ => []
  | Returns _ =>
      CallCpuCount false ::
      match cpu_count ps false with
      | Raises _ => []
      | Returns _ =>
          CallCpuCount true ::
          match cpu_count ps true with
          | Raises _ => []
          | Returns _ => [CallCpuPercent 1]
          end
      end
  end.

Definition memory_value (ps : Psutil) : value :=
  match virtual_memory ps with
  | Returns vm =>
      VDict
        [("total_mb", VFloat (to_mb (vm_total vm)));
         ("available_mb", VFloat (to_mb (vm_available vm)));
         ("used_mb", VFloat (to_mb (vm_used vm)));
         ("percentage", VFloat (vm_percent vm))]
  | Raises e => error_value "Error collecting memory info: " e
  end.

Definition partition_value (ps : Psutil) (p : sdiskpart) : value :=
  match disk_usage ps (mountpoint p) with
  | Returns usage =>
      VDict
        [("device", VStr (device p));
         ("mountpoint", VStr (mountpoint p));
         ("fstype", VStr (fstype p));
         ("opts", VStr (opts p));
         ("total_mb", VFloat (to_mb (du_total usage)));
         ("used_mb", VFloat (to_mb (du_used usage)));
         ("free_mb", VFloat (to_mb (du_free usage)));
         ("percentage", VFloat (du_percent usage))]
  | Raises e =>
      VDict [("device", VStr (device p)); ("error", VStr (exn_str e))]
  end.

Definition disk_value (ps : Psutil) : value :=
  match disk_partitions ps with
  | Returns partitions => VList (map (partition_value ps) partitions)
  | Raises e => error_value "Error collecting disk info: " e
  end.

Definition disk_calls (ps : Psutil) : list Call :=
  CallDiskPartitions ::
  match disk_partitions ps with
  | Returns partitions => map (fun p => CallDiskUsage (mountpoint p)) partitions
  | Raises _ => []
  end.

Definition network_value (ps : Psutil) : value :=
  match net_if_addrs ps with
  | Returns interfaces => VDict (net_loop interfaces [])
  | Raises e => error_value "Error collecting network info: " e
  end.

Definition environment_value (w : World) : value :=
  match os_environ w with
  | Returns environ => VDict (dict_of_environ environ)
  | Raises e => error_value "Error collecting environment variables: " e
  end.

(** A section that needs psutil: its value and its calls. *)
Definition metrics_value (f : Psutil -> value) (w : World) : value :=
  match psutil w with
  | Some ps => f ps
  | None => VStr unavailable
  end.

Definition metrics_calls (f : Psutil -> list Call) (w : World) : list Call :=
  match psutil w with
  | Some ps => f ps
  | None => []
  end.

Definition psutil_calls (w : World) : list Call :=
  metrics_calls cpu_calls w ++
  metrics_calls (fun _ => [CallVirtualMemory]) w ++
  metrics_calls disk_calls w ++
  metrics_calls (fun _ => [CallNetIfAddrs]) w.

Definition is_psutil_call (c : Call) : bool :=
  match c with
  | CallCpuFreq | CallCpuCount _ | CallCpuPercent _ | CallVirtualMemory
  | CallDiskPartitions | CallDiskUsage _ | CallNetIfAddrs => true
  | _ => false
  end.

Definition platform_calls : list Call :=
  [CallPlatformSystem; CallPlatformRelease; CallPlatformVersion;
   CallPlatformMachine; CallPlatformProcessor].


(** ** Sample hosts *)

Module Sample.

Definition windows_platform : Platform :=
  {| platform_system := Returns "Windows";
     platform_release := Returns "10";
     platform_version := Returns "10.0.19045";
     platform_machine := Returns "AMD64";
     platform_processor := Returns "Intel64 Family 6 Model 158" |}.

Definition system_drive : sdiskpart :=
  {| device := "C:"; mountpoint := "C:"; fstype := "NTFS"; opts := "rw,fixed" |}.

Definition optical_drive : sdiskpart :=
  {| device := "D:"; mountpoint := "D:"; fstype := ""; opts := "cdrom" |}.

Definition data_drive : sdiskpart :=
  {| device := "E:"; mountpoint := "E:"; fstype := "NTFS"; opts := "rw,fixed" |}.

Definition not_ready : exn := Exn "[WinError 21] The device is not ready".

Definition loopback : snicaddr :=
  {| family_str := "AddressFamily.AF_INET";
     address := Some "127.0.0.1";
     netmask := Some "255.0.0.0";
     broadcast := None;
     ptp := None |}.

(** A host with psutil; the optical drive is empty, so reading its usage
    raises. *)
Definition metrics : Psutil :=
  {| cpu_freq := Returns None;
     cpu_count := fun logical => Returns (Some (if logical then 8 else 4));
     cpu_percent := fun _ => Returns 12.5%float;
     virtual_memory :=
       Returns {| vm_total := 1073741824;
                  vm_available := 805306368;
                  vm_used := 268435456;
                  vm_percent := 25%float |};
     disk_partitions := Returns [system_drive; optical_drive; data_drive];
     disk_usage := fun path =>
       if String.eqb path "D:" then Raises not_ready
       else Returns {| du_total := 1073741824;
                       du_used := 123456789;
                       du_free := 950285035;
                       du_percent := 11.5%float |};
     net_if_addrs := Returns [("Loopback Pseudo-Interface 1", [loopback])] |}.

(** A stand-in for the serializer: the top-level keys, one per line. *)
Definition render (config : dict) : string :=
  String.concat "" (map (fun kv => fst kv +:+ ":" +:+ String (Ascii.ascii_of_nat 10) "") config).

Definition host : World :=
  {| platform := windows_platform;
     psutil := Some metrics;
     yaml_importable := true;
     os_environ := Returns [("OS", "Windows_NT"); ("USERNAME", "admin")];
     datetime_now_isoformat := Returns "2025-02-17T09:30:00.000000";
     open_w := fun _ => Returns tt;
     yaml_dump := fun config =>
       {| dumped_text := render config; dumped_outcome := Returns tt |};
     file_close := fun _ => Returns tt |}.

Definition with_psutil (w : World) (p : option Psutil) : World :=
  {| platform := platform w;
     psutil := p;
     yaml_importable := yaml_importable w;
     os_environ := os_environ w;
     datetime_now_isoformat := datetime_now_isoformat w;
     open_w := open_w w;
     yaml_dump := yaml_dump w;
     file_close := file_close w |}.

Definition with_platform (w : World) (p : Platform) : World :=
  {| platform := p;
     psutil := psutil w;
     yaml_importable := yaml_importable w;
     os_environ := os_environ w;
     datetime_now_isoformat := datetime_now_isoformat w;
     open_w := open_w w;
     yaml_dump := yaml_dump w;
     file_close := file_close w |}.

Definition with_clock (w : World) (c : outcome string) : World :=
  {| platform := platform w;
     psutil := psutil w;
     yaml_importable := yaml_importable w;
     os_environ := os_environ w;
     datetime_now_isoformat := c;
     open_w := open_w w;
     yaml_dump := yaml_dump w;
     file_close := file_close w |}.

Definition with_files (w : World) (o : string -> outcome unit)
    (d : dict -> Dumped) (c : string -> outcome unit) : World :=
  {| platform := platform w;
     psutil := psutil w;
     yaml_importable := yaml_importable w;
     os_environ := os_environ w;
     datetime_now_isoformat := datetime_now_isoformat w;
     open_w := o;
     yaml_dump := d;
     file_close := c |}.

Definition without_yaml (w : World) : World :=
  {| platform := platform w;
     psutil := psutil w;
     yaml_importable := false;
     os_environ := os_environ w;
     datetime_now_isoformat := datetime_now_isoformat w;
     open_w := open_w w;
     yaml_dump := yaml_dump w;
     file_close := file_close w |}.

(** The same host without psutil installed. *)
Definition bare_host : World := with_psutil host None.

(** A host whose platform module fails to name the system. *)
Definition broken_platform : World :=
  with_platform host
    {| platform_system := Raises (Exn "uname failed");
       platform_release := Returns "10";
       platform_version := Returns "10.0.19045";
       platform_machine := Returns "AMD64";
       platform_processor := Returns "Intel64 Family 6 Model 158" |}.

(** A host whose clock cannot be read. *)
Definition broken_clock : World :=
  with_clock host (Raises (Exn "clock unavailable")).

(** A host on which the destination cannot be opened. *)
Definition read_only_host : World :=
  with_files host (fun _ => Raises (Exn "[Errno 13] Permission denied"))
    (yaml_dump host) (file_close host).

(** A host with psutil on which the CPU sample and the memory query fail. *)
Definition degraded_metrics : Psutil :=
  {| cpu_freq := cpu_freq metrics;
     cpu_count := cpu_count metrics;
     cpu_percent := fun _ => Raises (Exn "access denied");
     virtual_memory := Raises (Exn "performance counters disabled");
     disk_partitions := disk_partitions metrics;
     disk_usage := disk_usage metrics;
     net_if_addrs := net_if_addrs metrics |}.

Definition degraded_host : World := with_psutil host (Some degraded_metrics).

End Sample.

(** The fault, if any, that leaves [with open(path, 'w') as file:
    yaml.dump(config, file, ...)]: from opening, from closing, or from the
    serializer. *)
Definition write_fault (w : World) (config : dict) (path : string) : option exn :=
  match open_w w path with
  | Raises e => Some e
  | Returns _ =>
      match file_close w path with
      | Raises e => Some e
      | Returns _ =>
          match dumped_outcome (yaml_dump w config) with
          | Raises e => Some e
          | Returns _ => None
          end
      end
  end.

(** The size as the specification words it: the byte count divided by
    1024^2, rounded to two decimal places (the nearest multiple of 0.01, ties
    to the even one), as the float nearest to that decimal. *)
Definition megabytes_2dp (bytes : Z) : float :=
  (of_Z (round_half_even (bytes * 100) (1024 ^ 2)) / of_Z 100)%float.

(** The first fault of the platform-identification calls, if any. *)
Definition platform_fault (p : Platform) : option exn :=
  match platform_system p with
  | Raises e => Some e
  | Returns _ =>
      match platform_release p with
      | Raises e => Some e
      | Returns _ =>
          match platform_version p with
          | Raises e => Some e
          | Returns _ =>
              match platform_machine p with
              | Raises e => Some e
              | Returns _ =>
                  match platform_processor p with
                  | Raises e => Some e
                  | Returns _ => None
                  end
              end
          end
      end
  end.

(** The calls that touch the destination file. *)
Definition is_file_call (c : Call) : bool :=
  match c with
  | CallOpen _ | CallYamlDump _ | CallClose _ => true
  | _ => false
  end.

(** The calls of the disk section. *)
Definition is_disk_call (c : Call) : bool :=
  match c with
  | CallDiskPartitions | CallDiskUsage _ => true
  | _ => false
  end.

(** More sample hosts: faults while writing. *)
Module Faulty.

(** The volume fills up while the serializer writes: one line reached the
    file. *)
Definition full_disk_host : World :=
  Sample.with_files Sample.host (open_w Sample.host)
    (fun _ =>
       {| dumped_text := "os:";
          dumped_outcome := Raises (Exn "[Errno 28] No space left on device") |})
    (file_close Sample.host).

(** A host whose CPU frequency is reported and whose core count is not. *)
Definition laptop_metrics : Psutil :=
  {| cpu_freq :=
       Returns (Some {| freq_current := 1800%float;
                        freq_min := 800%float;
                        freq_max := 3600%float |});
     cpu_count := fun logical => Returns (if logical then Some 8 else None);
     cpu_percent := cpu_percent Sample.metrics;
     virtual_memory := virtual_memory Sample.metrics;
     disk_partitions := Returns [];
     disk_usage := disk_usage Sample.metrics;
     net_if_addrs := net_if_addrs Sample.metrics |}.

Definition laptop : World := Sample.with_psutil Sample.host (Some laptop_metrics).

End Faulty.

(** * Properties *)

(** ** The monad and the trace *)

Lemma extend_nil s : extend s [] = s.
Proof. destruct s; unfold extend; simpl; now rewrite app_nil_r. Qed.

Lemma extend_extend s t u : extend (extend s t) u = extend s (t ++ u).
Proof. unfold extend; simpl; now rewrite app_assoc. Qed.

Lemma log_extend c s : log c s = extend s [c].
Proof. reflexivity. Qed.

Lemma call_returns {A} c (o : outcome A) a s :
  o = Returns a -> call c o s = (extend s [c], Ok a).
Proof. intros ->; reflexivity. Qed.

Lemma call_raises {A} c (o : outcome A) e s :
  o = Raises e -> call c o s = (extend s [c], Raise e).
Proof. intros ->; reflexivity. Qed.

Lemma returns_inv {A} (o : outcome A) : returns o -> exists a, o = Returns a.
Proof. destruct o; simpl; [eauto | tauto]. Qed.

(** ** Dictionaries *)

Lemma dict_get_set_eq d k v : dict_get (dict_set d k v) k = Some v.
Proof.
  induction d as [|[k' v'] d IH]; simpl.
  - now rewrite String.eqb_refl.
  - destruct (String.eqb k' k) eqn:E; simpl; rewrite E; auto.
Qed.

Lemma dict_get_set_ne d k k' v :
  k <> k' -> dict_get (dict_set d k v) k' = dict_get d k'.
Proof.
  intros Hne; induction d as [|[k0 v0] d IH]; simpl.
  - destruct (String.eqb k k') eqn:E; auto.
    apply String.eqb_eq in E; contradiction.
  - destruct (String.eqb k0 k) eqn:E; simpl.
    + apply String.eqb_eq in E; subst k0.
      destruct (String.eqb k k') eqn:E'; auto.
      apply String.eqb_eq in E'; contradiction.
    + destruct (String.eqb k0 k'); auto.
Qed.

(** A key that is not there yet goes last. *)
Lemma dict_set_fresh d k v :
  dict_get d k = None -> dict_set d k v = d ++ [(k, v)].
Proof.
  induction d as [|[k' v'] d IH]; simpl; auto.
  destruct (String.eqb k' k); [discriminate|].
  intros H; now rewrite IH.
Qed.

(** ** The sections, one by one *)

Ltac run_section :=
  unfold try_except, bind, call, lift, ret, log, extend; simpl.

Lemma partition_record_run ps p s :
  partition_record ps p s =
    (extend s [CallDiskUsage (mountpoint p)], Ok (partition_value ps p)).
Proof.
  unfold partition_record, partition_value; run_section.
  destruct (disk_usage ps (mountpoint p)); reflexivity.
Qed.

Lemma disk_loop_run ps partitions :
  forall disk_info s,
    disk_loop ps partitions disk_info s =
      (extend s (map (fun p => CallDiskUsage (mountpoint p)) partitions),
       Ok (disk_info ++ map (partition_value ps) partitions)).
Proof.
  induction partitions as [|p rest IH]; intros disk_info s; simpl.
  - now rewrite extend_nil, app_nil_r.
  - unfold bind at 1. rewrite partition_record_run, IH, extend_extend.
    now rewrite <- app_assoc.
Qed.

Lemma addr_loop_map addrs :
  forall addr_list, addr_loop addrs addr_list = addr_list ++ map addr_record addrs.
Proof.
  induction addrs as [|a rest IH]; intros addr_list; simpl.
  - now rewrite app_nil_r.
  - now rewrite IH, <- app_assoc.
Qed.

Lemma collect_os_run w config s system release version machine processor :
  platform_system (platform w) = Returns system ->
  platform_release (platform w) = Returns release ->
  platform_version (platform w) = Returns version ->
  platform_machine (platform w) = Returns machine ->
  platform_processor (platform w) = Returns processor ->
  collect_os w config s =
    (extend s platform_calls,
     Ok (dict_set config "os"
           (VDict
              [("system", VStr system);
               ("release", VStr release);
               ("version", VStr version);
               ("machine", VStr machine);
               ("processor", VStr processor)]))).
Proof.
  intros H1 H2 H3 H4 H5. unfold collect_os. rewrite H1, H2, H3, H4, H5.
  run_section. now rewrite <- !app_assoc.
Qed.

Lemma collect_cpu_run w config s :
  collect_cpu w config s =
    (extend s (metrics_calls cpu_calls w),
     Ok (dict_set config "cpu" (metrics_value cpu_value w))).
Proof.
  unfold collect_cpu, metrics_calls, metrics_value, cpu_calls, cpu_value.
  destruct (psutil w) as [ps|].
  - run_section.
    destruct (cpu_freq ps) as [f|e]; simpl; [|reflexivity].
    destruct (cpu_count ps false) as [pc|e]; simpl;
      [|now rewrite <- !app_assoc].
    destruct (cpu_count ps true) as [tc|e]; simpl;
      [|now rewrite <- !app_assoc].
    destruct (cpu_percent ps 1) as [u|e]; simpl; now rewrite <- !app_assoc.
  - unfold ret. now rewrite extend_nil.
Qed.

Lemma collect_memory_run w config s :
  collect_memory w config s =
    (extend s (metrics_calls (fun _ => [CallVirtualMemory]) w),
     Ok (dict_set config "memory" (metrics_value memory_value w))).
Proof.
  unfold collect_memory, metrics_calls, metrics_value, memory_value.
  destruct (psutil w) as [ps|].
  - run_section. destruct (virtual_memory ps); reflexivity.
  - unfold ret. now rewrite extend_nil.
Qed.

Lemma collect_disk_run w config s :
  collect_disk w config s =
    (extend s (metrics_calls disk_calls w),
     Ok (dict_set config "disk" (metrics_value disk_value w))).
Proof.
  unfold collect_disk, metrics_calls, metrics_value, disk_calls, disk_value.
  destruct (psutil w) as [ps|].
  - unfold try_except, bind at 1, call, lift.
    destruct (disk_partitions ps) as [partitions|e]; [|reflexivity].
    unfold bind. rewrite disk_loop_run. unfold ret.
    now rewrite log_extend, extend_extend.
  - unfold ret. now rewrite extend_nil.
Qed.

Lemma collect_network_run w config s :
  collect_network w config s =
    (extend s (metrics_calls (fun _ => [CallNetIfAddrs]) w),
     Ok (dict_set config "network" (metrics_value network_value w))).
Proof.
  unfold collect_network, metrics_calls, metrics_value, network_value.
  destruct (psutil w) as [ps|].
  - run_section. destruct (net_if_addrs ps); reflexivity.
  - unfold ret. now rewrite extend_nil.
Qed.

Lemma collect_environment_run w config s :
  collect_environment w config s =
    (extend s [CallEnviron],
     Ok (dict_set config "environment" (environment_value w))).
Proof.
  unfold collect_environment, environment_value. run_section.
  destruct (os_environ w); reflexivity.
Qed.

Lemma collect_timestamp_run w config s timestamp :
  datetime_now_isoformat w = Returns timestamp ->
  collect_timestamp w config s =
    (extend s [CallNow], Ok (dict_set config "timestamp" (VStr timestamp))).
Proof. intros H. unfold collect_timestamp. rewrite H. reflexivity. Qed.

(** ** The whole collection *)

(** When the platform answers, these are the calls of [gather_info], in
    this order, and this is the snapshot it returns, unless the clock
    raises. *)
Lemma gather_info_platform_ok w s system release version machine processor :
  platform_system (platform w) = Returns system ->
  platform_release (platform w) = Returns release ->
  platform_version (platform w) = Returns version ->
  platform_machine (platform w) = Returns machine ->
  platform_processor (platform w) = Returns processor ->
  gather_info w s =
    (extend s (platform_calls ++ psutil_calls w ++ [CallEnviron; CallNow]),
     match datetime_now_isoformat w with
     | Returns timestamp =>
         Ok [("os", VDict
                      [("system", VStr system);
                       ("release", VStr release);
                       ("version", VStr version);
                       ("machine", VStr machine);
                       ("processor", VStr processor)]);
             ("cpu", metrics_value cpu_value w);
             ("memory", metrics_value memory_value w);
             ("disk", metrics_value disk_value w);
             ("network", metrics_value network_value w);
             ("environment", environment_value w);
             ("timestamp", VStr timestamp)]
     | Raises e => Raise e
     end).
Proof.
  intros H1 H2 H3 H4 H5. unfold gather_info.
  unfold bind at 1.
  rewrite (collect_os_run w [] s _ _ _ _ _ H1 H2 H3 H4 H5).
  unfold bind at 1. rewrite collect_cpu_run.
  unfold bind at 1. rewrite collect_memory_run.
  unfold bind at 1. rewrite collect_disk_run.
  unfold bind at 1. rewrite collect_network_run.
  unfold bind at 1. rewrite collect_environment_run.
  unfold bind at 1, collect_timestamp, bind, call, lift, ret, psutil_calls.
  rewrite log_extend, !extend_extend, <- !app_assoc.
  destruct (datetime_now_isoformat w); reflexivity.
Qed.

Lemma gather_info_run w s system release version machine processor timestamp :
  platform_system (platform w) = Returns system ->
  platform_release (platform w) = Returns release ->
  platform_version (platform w) = Returns version ->
  platform_machine (platform w) = Returns machine ->
  platform_processor (platform w) = Returns processor ->
  datetime_now_isoformat w = Returns timestamp ->
  gather_info w s =
    (extend s (platform_calls ++ psutil_calls w ++ [CallEnviron; CallNow]),
     Ok [("os", VDict
                  [("system", VStr system);
                   ("release", VStr release);
                   ("version", VStr version);
                   ("machine", VStr machine);
                   ("processor", VStr processor)]);
         ("cpu", metrics_value cpu_value w);
         ("memory", metrics_value memory_value w);
         ("disk", metrics_value disk_value w);
         ("network", metrics_value network_value w);
         ("environment", environment_value w);
         ("timestamp", VStr timestamp)]).
Proof.
  intros H1 H2 H3 H4 H5 H6.
  rewrite (gather_info_platform_ok w s _ _ _ _ _ H1 H2 H3 H4 H5), H6.
  reflexivity.
Qed.

(** A fault of the platform module leaves [gather_info] at once: nothing
    was collected after it. *)
Lemma gather_info_platform_fault w s e :
  platform_fault (platform w) = Some e ->
  exists t,
    gather_info w s = (extend s t, Raise e) /\
    Forall (fun c => In c platform_calls) t.
Proof.
  unfold platform_fault, gather_info, collect_os. intros H.
  unfold bind, call, lift, ret.
  destruct (platform_system (platform w)).
  2:{ inversion H; subst. exists [CallPlatformSystem]. split; [reflexivity|].
      repeat constructor; simpl; tauto. }
  destruct (platform_release (platform w)).
  2:{ inversion H; subst.
      exists [CallPlatformSystem; CallPlatformRelease].
      split; [unfold log, extend; simpl; now rewrite <- !app_assoc|].
      repeat constructor; simpl; tauto. }
  destruct (platform_version (platform w)).
  2:{ inversion H; subst.
      exists [CallPlatformSystem; CallPlatformRelease; CallPlatformVersion].
      split; [unfold log, extend; simpl; now rewrite <- !app_assoc|].
      repeat constructor; simpl; tauto. }
  destruct (platform_machine (platform w)).
  2:{ inversion H; subst.
      exists [CallPlatformSystem; CallPlatformRelease; CallPlatformVersion;
              CallPlatformMachine].
      split; [unfold log, extend; simpl; now rewrite <- !app_assoc|].
      repeat constructor; simpl; tauto. }
  destruct (platform_processor (platform w)); [discriminate|].
  inversion H; subst. exists platform_calls.
  split; [unfold log, extend; simpl; now rewrite <- !app_assoc|].
  repeat constructor; simpl; tauto.
Qed.

Lemma platform_fault_none w :
  platform_fault (platform w) = None <-> platform_available w.
Proof.
  unfold platform_fault, platform_available.
  destruct (platform_system (platform w)), (platform_release (platform w)),
    (platform_version (platform w)), (platform_machine (platform w)),
    (platform_processor (platform w)); simpl; split; intros H;
    try discriminate; tauto.
Qed.

Lemma gather_info_available w s :
  platform_available w -> clock_available w ->
  exists system release version machine processor timestamp,
    gather_info w s =
      (extend s (platform_calls ++ psutil_calls w ++ [CallEnviron; CallNow]),
       Ok [("os", VDict
                    [("system", VStr system);
                     ("release", VStr release);
                     ("version", VStr version);
                     ("machine", VStr machine);
                     ("processor", VStr processor)]);
           ("cpu", metrics_value cpu_value w);
           ("memory", metrics_value memory_value w);
           ("disk", metrics_value disk_value w);
           ("network", metrics_value network_value w);
           ("environment", environment_value w);
           ("timestamp", VStr timestamp)]).
Proof.
  intros (H1 & H2 & H3 & H4 & H5) H6.
  apply returns_inv in H1, H2, H3, H4, H5, H6.
  destruct H1 as [a1 H1], H2 as [a2 H2], H3 as [a3 H3], H4 as [a4 H4],
    H5 as [a5 H5], H6 as [a6 H6].
  exists a1, a2, a3, a4, a5, a6. now apply gather_info_run.
Qed.







Lemma gather_info_ok_inv w s s' config :
  gather_info w s = (s', Ok config) ->
  platform_available w /\ clock_available w.
Proof.
  intros Hrun.
  destruct (platform_fault (platform w)) as [e|] eqn:F.
  - destruct (gather_info_platform_fault w s e F) as (t & Ht & _).
    rewrite Ht in Hrun. discriminate.
  - apply platform_fault_none in F. split; [exact F|].
    destruct F as (H1 & H2 & H3 & H4 & H5).
    apply returns_inv in H1, H2, H3, H4, H5.
    destruct H1 as [a1 H1], H2 as [a2 H2], H3 as [a3 H3], H4 as [a4 H4],
      H5 as [a5 H5].
    rewrite (gather_info_platform_ok w s _ _ _ _ _ H1 H2 H3 H4 H5) in Hrun.
    unfold clock_available.
    destruct (datetime_now_isoformat w); [exact I | discriminate].
Qed.




(** Whatever happens, the only psutil calls [gather_info] makes are those of
    its four metrics sections. *)
Lemma gather_info_trace w s :
  exists t,
    fst (gather_info w s) = extend s t /\
    forall c, In c t -> is_psutil_call c = true -> In c (psutil_calls w).
Proof.
  destruct (platform_fault (platform w)) as [e|] eqn:F.
  - destruct (gather_info_platform_fault w s e F) as (t & Ht & Hin).
    exists t. rewrite Ht. split; [reflexivity|].
    intros c Hc Hps. rewrite List.Forall_forall in Hin. apply Hin in Hc.
    simpl in Hc.
    destruct Hc as [<-|[<-|[<-|[<-|[<-|[]]]]]]; discriminate.
  - apply platform_fault_none in F. destruct F as (H1 & H2 & H3 & H4 & H5).
    apply returns_inv in H1, H2, H3, H4, H5.
    destruct H1 as [a1 H1], H2 as [a2 H2], H3 as [a3 H3], H4 as [a4 H4],
      H5 as [a5 H5].
    rewrite (gather_info_platform_ok w s _ _ _ _ _ H1 H2 H3 H4 H5).
    eexists. split; [reflexivity|].
    intros c Hc Hps. rewrite !in_app_iff in Hc.
    destruct Hc as [Hc|[Hc|Hc]]; [|exact Hc|]; simpl in Hc.
    + destruct Hc as [<-|[<-|[<-|[<-|[<-|[]]]]]]; discriminate.
    + destruct Hc as [<-|[<-|[]]]; discriminate.
Qed.

(** ** Failure boundaries *)

(** With psutil, each metrics section queries its data source. *)
Lemma psutil_calls_sources w ps :
  psutil w = Some ps ->
  In CallCpuFreq (psutil_calls w) /\
  In CallVirtualMemory (psutil_calls w) /\
  In CallDiskPartitions (psutil_calls w) /\
  In CallNetIfAddrs (psutil_calls w).
Proof.
  intros Hps. unfold psutil_calls, metrics_calls, cpu_calls, disk_calls.
  rewrite Hps, !in_app_iff. repeat split.
  - left. now left.
  - right. left. now left.
  - right. right. left. now left.
  - right. right. right. now left.
Qed.

(** C2, as stated, fails: the 'os' and 'timestamp' sections have no failure
    boundary.  On a host whose platform module raises, [gather_info] raises
    after its first call and collects nothing else; on a host whose clock
    raises, it raises after every other section was collected.  So it is
    not true that [gather_info] returns a snapshot whatever faults. *)
Lemma gather_info_unguarded_sections_raise :
  gather_info Sample.broken_platform (initial ∅) =
    (extend (initial ∅) [CallPlatformSystem], Raise (Exn "uname failed")) /\
  snd (gather_info Sample.broken_clock (initial ∅)) =
    Raise (Exn "clock unavailable") /\
  ~ (forall w s, exists config s', gather_info w s = (s', Ok config)).
Proof.
  split; [reflexivity|]. split; [reflexivity|].
  intros H. destruct (H Sample.broken_platform (initial ∅)) as (c & s' & Hc).
  discriminate.
Qed.

(** C2, amended.  Five sections (cpu, memory, disk, network, environment)
    have a failure boundary of their own: when the platform module and the
    clock answer, [gather_info] returns the seven-key snapshot whatever
    these five data sources do; a fault in one of them becomes the
    descriptive string of that section, the value of every section depends
    on its own data source only, and every data source is still queried.
    'os' and 'timestamp' have no boundary: a fault there is raised to the
    caller. *)
Theorem gather_info_guarded_sections w s :
  (platform_available w -> clock_available w ->
   exists config s',
     gather_info w s = (s', Ok config) /\
     dict_keys config =
       ["os"; "cpu"; "memory"; "disk"; "network"; "environment"; "timestamp"] /\
     dict_get config "cpu" = Some (metrics_value cpu_value w) /\
     dict_get config "memory" = Some (metrics_value memory_value w) /\
     dict_get config "disk" = Some (metrics_value disk_value w) /\
     dict_get config "network" = Some (metrics_value network_value w) /\
     dict_get config "environment" = Some (environment_value w) /\
     (forall ps e, psutil w = Some ps -> cpu_fault ps = Some e ->
        dict_get config "cpu" =
          Some (VStr ("Error collecting CPU info: " +:+ exn_str e))) /\
     (forall ps e, psutil w = Some ps -> virtual_memory ps = Raises e ->
        dict_get config "memory" =
          Some (VStr ("Error collecting memory info: " +:+ exn_str e))) /\
     (forall ps e, psutil w = Some ps -> disk_partitions ps = Raises e ->
        dict_get config "disk" =
          Some (VStr ("Error collecting disk info: " +:+ exn_str e))) /\
     (forall ps e, psutil w = Some ps -> net_if_addrs ps = Raises e ->
        dict_get config "network" =
          Some (VStr ("Error collecting network info: " +:+ exn_str e))) /\
     (forall e, os_environ w = Raises e ->
        dict_get config "environment" =
          Some (VStr ("Error collecting environment variables: " +:+ exn_str e))) /\
     (forall ps, psutil w = Some ps ->
        In CallCpuFreq (st_trace s') /\
        In CallVirtualMemory (st_trace s') /\
        In CallDiskPartitions (st_trace s') /\
        In CallNetIfAddrs (st_trace s')) /\
     In CallEnviron (st_trace s') /\
     In CallNow (st_trace s')) /\
  (forall e, platform_fault (platform w) = Some e ->
     snd (gather_info w s) = Raise e) /\
  (platform_available w ->
   forall e, datetime_now_isoformat w = Raises e ->
     snd (gather_info w s) = Raise e).
Proof.
  split; [|split].
  - intros Hp Hc.
    destruct (gather_info_available w s Hp Hc)
      as (a1 & a2 & a3 & a4 & a5 & a6 & Hrun).
    eexists _, _. split; [exact Hrun|].
    repeat (split; [reflexivity|]).
    split; [|split; [|split; [|split; [|split; [|split]]]]].
    + intros ps e Hps Hf. simpl. f_equal.
      unfold metrics_value, cpu_value. rewrite Hps.
      unfold cpu_fault in Hf.
      destruct (cpu_freq ps); [|now inversion Hf].
      destruct (cpu_count ps false); [|now inversion Hf].
      destruct (cpu_count ps true); [|now inversion Hf].
      destruct (cpu_percent ps 1); [discriminate|now inversion Hf].
    + intros ps e Hps Hf. simpl. f_equal.
      unfold metrics_value, memory_value. now rewrite Hps, Hf.
    + intros ps e Hps Hf. simpl. f_equal.
      unfold metrics_value, disk_value. now rewrite Hps, Hf.
    + intros ps e Hps Hf. simpl. f_equal.
      unfold metrics_value, network_value. now rewrite Hps, Hf.
    + intros e Hf. simpl. f_equal.
      unfold environment_value. now rewrite Hf.
    + intros ps Hps.
      destruct (psutil_calls_sources w ps Hps) as (I1 & I2 & I3 & I4).
      unfold extend, st_trace.
      repeat split; apply in_or_app; right; apply in_or_app; right;
        apply in_or_app; left; assumption.
    + unfold extend, st_trace.
      split; apply in_or_app; right; apply in_or_app; right;
        apply in_or_app; right; simpl; auto.
  - intros e Hf. destruct (gather_info_platform_fault w s e Hf) as (t & Ht & _).
    now rewrite Ht.
  - intros (H1 & H2 & H3 & H4 & H5) e Hf.
    apply returns_inv in H1, H2, H3, H4, H5.
    destruct H1 as [a1 H1], H2 as [a2 H2], H3 as [a3 H3], H4 as [a4 H4],
      H5 as [a5 H5].
    rewrite (gather_info_platform_ok w s _ _ _ _ _ H1 H2 H3 H4 H5), Hf.
    reflexivity.
Qed.

(** On the sample host whose CPU sample and memory query fail, the two
    sections hold their error strings and the disk section is intact. *)
Lemma gather_info_guarded_sections_witness :
  platform_available Sample.degraded_host /\
  clock_available Sample.degraded_host /\
  exists config s',
    gather_info Sample.degraded_host (initial ∅) = (s', Ok config) /\
    dict_get config "cpu" =
      Some (VStr "Error collecting CPU info: access denied") /\
    dict_get config "memory" =
      Some (VStr "Error collecting memory info: performance counters disabled") /\
    dict_get config "disk" =
      Some (metrics_value disk_value Sample.degraded_host) /\
    In CallNetIfAddrs (st_trace s').
Proof.
  assert (Hp : platform_available Sample.degraded_host) by (vm_compute; tauto).
  assert (Hc : clock_available Sample.degraded_host) by (vm_compute; exact I).
  split; [exact Hp|]. split; [exact Hc|].
  destruct (gather_info_guarded_sections Sample.degraded_host (initial ∅))
    as [H _].
  destruct (H Hp Hc)
    as (config & s' & Hrun & _ & _ & _ & Hdisk & _ & _ & Hcpu & Hmem & _ & _
        & _ & Hcalls & _).
  exists config, s'. split; [exact Hrun|].
  split; [exact (Hcpu Sample.degraded_metrics (Exn "access denied")
                   eq_refl eq_refl)|].
  split; [exact (Hmem Sample.degraded_metrics
                   (Exn "performance counters disabled") eq_refl eq_refl)|].
  split; [exact Hdisk|].
  exact (proj2 (proj2 (proj2 (Hcalls Sample.degraded_metrics eq_refl)))).
Defined.

(** ** Without psutil *)

(** C3. When psutil is absent, [gather_info] makes no psutil call at all,
    and the 'cpu', 'memory', 'disk' and 'network' values of the snapshot it
    returns are each the string "psutil module not available". *)
Theorem psutil_absent_marker w s :
  psutil w = None ->
  (exists t,
     fst (gather_info w s) = extend s t /\
     Forall (fun c => is_psutil_call c = false) t) /\
  (forall config s',
     gather_info w s = (s', Ok config) ->
     dict_get config "cpu" = Some (VStr "psutil module not available") /\
     dict_get config "memory" = Some (VStr "psutil module not available") /\
     dict_get config "disk" = Some (VStr "psutil module not available") /\
     dict_get config "network" = Some (VStr "psutil module not available")) /\
  (platform_available w -> clock_available w ->
   exists config s', gather_info w s = (s', Ok config)).
Proof.
  intros Hnone. split; [|split].
  - destruct (gather_info_trace w s) as (t & Ht & Hin).
    exists t. split; [exact Ht|].
    apply List.Forall_forall. intros c Hc.
    destruct (is_psutil_call c) eqn:E; [|reflexivity].
    specialize (Hin c Hc E).
    unfold psutil_calls, metrics_calls in Hin. rewrite Hnone in Hin.
    destruct Hin.
  - intros config s' Hrun.
    destruct (gather_info_ok_inv w s s' config Hrun) as [Hp Hc].
    destruct (gather_info_available w s Hp Hc)
      as (a1 & a2 & a3 & a4 & a5 & a6 & Hrun').
    rewrite Hrun' in Hrun. inversion Hrun; subst config.
    unfold metrics_value. rewrite Hnone. repeat split.
  - intros Hp Hc.
    destruct (gather_info_available w s Hp Hc)
      as (a1 & a2 & a3 & a4 & a5 & a6 & Hrun').
    eauto.
Qed.

Lemma psutil_absent_marker_witness :
  exists config s',
    gather_info Sample.bare_host (initial ∅) = (s', Ok config) /\
    dict_get config "cpu" = Some (VStr "psutil module not available") /\
    dict_get config "memory" = Some (VStr "psutil module not available") /\
    dict_get config "disk" = Some (VStr "psutil module not available") /\
    dict_get config "network" = Some (VStr "psutil module not available") /\
    Forall (fun c => is_psutil_call c = false) (st_trace s').
Proof.
  destruct (psutil_absent_marker Sample.bare_host (initial ∅) eq_refl)
    as ((t & Ht & Hno) & Hval & Hex).
  destruct Hex as (config & s' & Hrun);
    [vm_compute; tauto | vm_compute; exact I |].
  exists config, s'. split; [exact Hrun|].
  destruct (Hval config s' Hrun) as (H1 & H2 & H3 & H4).
  repeat (split; [assumption|]).
  rewrite Hrun in Ht. simpl in Ht. rewrite Ht. exact Hno.
Defined.

(** ** The disk section *)

Lemma disk_section_records w s ps partitions :
  psutil w = Some ps ->
  disk_partitions ps = Returns partitions ->
  platform_available w -> clock_available w ->
  exists config s',
    gather_info w s = (s', Ok config) /\
    dict_get config "disk" = Some (VList (map (partition_value ps) partitions)) /\
    forall p, In p partitions -> In (CallDiskUsage (mountpoint p)) (st_trace s').
Proof.
  intros Hps Hparts Hp Hc.
  destruct (gather_info_available w s Hp Hc)
    as (a1 & a2 & a3 & a4 & a5 & a6 & Hrun).
  eexists _, _. split; [exact Hrun|]. split.
  - simpl. unfold metrics_value, disk_value. now rewrite Hps, Hparts.
  - intros p Hin. unfold extend, st_trace.
    apply in_or_app; right; apply in_or_app; right; apply in_or_app; left.
    unfold psutil_calls, metrics_calls, disk_calls. rewrite Hps, Hparts.
    rewrite !in_app_iff. right; right; left. right.
    apply (in_map (fun p => CallDiskUsage (mountpoint p))), Hin.
Qed.

(** C4. With psutil and an enumeration of partitions, the 'disk' value is a
    sequence with one record per partition, in enumeration order: a
    partition whose usage read raises is recorded with its device name and
    the error description only, every other partition with its eight
    fields; the usage of every partition is read, whatever the others did. *)
Theorem disk_partition_independent w s ps (partitions : list sdiskpart) :
  psutil w = Some ps ->
  disk_partitions ps = Returns partitions ->
  platform_available w -> clock_available w ->
  exists config s' (records : list value),
    gather_info w s = (s', Ok config) /\
    dict_get config "disk" = Some (VList records) /\
    length records = length partitions /\
    (forall (i : nat) p, partitions !! i = Some p ->
       In (CallDiskUsage (mountpoint p)) (st_trace s') /\
       (forall e, disk_usage ps (mountpoint p) = Raises e ->
          records !! i =
            Some (VDict [("device", VStr (device p));
                         ("error", VStr (exn_str e))])) /\
       (forall usage, disk_usage ps (mountpoint p) = Returns usage ->
          records !! i =
            Some (VDict
                    [("device", VStr (device p));
                     ("mountpoint", VStr (mountpoint p));
                     ("fstype", VStr (fstype p));
                     ("opts", VStr (opts p));
                     ("total_mb", VFloat (to_mb (du_total usage)));
                     ("used_mb", VFloat (to_mb (du_used usage)));
                     ("free_mb", VFloat (to_mb (du_free usage)));
                     ("percentage", VFloat (du_percent usage))]))).
Proof.
  intros Hps Hparts Hp Hc.
  destruct (disk_section_records w s ps partitions Hps Hparts Hp Hc)
    as (config & s' & Hrun & Hdisk & Hcalls).
  exists config, s', (map (partition_value ps) partitions).
  split; [exact Hrun|]. split; [exact Hdisk|].
  split; [apply length_map|].
  intros i p Hi. split; [|split].
  - apply Hcalls. apply list_elem_of_In. eapply list_elem_of_lookup_2, Hi.
  - intros e He. rewrite list_lookup_fmap, Hi. simpl.
    unfold partition_value. now rewrite He.
  - intros usage Hu. rewrite list_lookup_fmap, Hi. simpl.
    unfold partition_value. now rewrite Hu.
Qed.

(** On the sample host the optical drive is empty: its record is the
    reduced one, between the full records of the two fixed drives. *)
Lemma disk_partition_independent_witness :
  exists config s' r1 r3,
    gather_info Sample.host (initial ∅) = (s', Ok config) /\
    dict_get config "disk" =
      Some (VList
              [VDict r1;
               VDict [("device", VStr "D:");
                      ("error", VStr "[WinError 21] The device is not ready")];
               VDict r3]) /\
    dict_keys r1 =
      ["device"; "mountpoint"; "fstype"; "opts";
       "total_mb"; "used_mb"; "free_mb"; "percentage"] /\
    dict_keys r3 = dict_keys r1.
Proof.
  destruct (disk_partition_independent Sample.host (initial ∅) Sample.metrics
              [Sample.system_drive; Sample.optical_drive; Sample.data_drive]
              eq_refl eq_refl)
    as (config & s' & records & Hrun & Hdisk & Hlen & Hrec);
    [vm_compute; tauto | vm_compute; exact I |].
  destruct (Hrec 0%nat Sample.system_drive eq_refl) as (_ & _ & H0).
  destruct (Hrec 1%nat Sample.optical_drive eq_refl) as (_ & H1 & _).
  destruct (Hrec 2%nat Sample.data_drive eq_refl) as (_ & _ & H2).
  specialize (H0 _ eq_refl). specialize (H1 _ eq_refl).
  specialize (H2 _ eq_refl).
  destruct records as [|x1 [|x2 [|x3 [|x4 rest]]]]; try discriminate Hlen.
  simpl in H0, H1, H2.
  inversion H0; inversion H1; inversion H2; subst x1 x2 x3.
  eexists config, s', _, _. split; [exact Hrun|].
  split; [exact Hdisk|]. split; reflexivity.
Defined.

(** ** Bytes to megabytes *)


(** A quotient that is an integer is left as it is. *)
Lemma round_half_even_exact k den :
  0 < den -> round_half_even (k * den) den = k.
Proof.
  intros Hden. unfold round_half_even.
  rewrite Z.div_mul, Z.mod_mul by lia.
  destruct (2 * 0 <? den) eqn:E; [reflexivity|].
  apply Z.ltb_ge in E. lia.
Qed.

(** *** Binary64 facts behind the conversion

    The primitive division is specified by [SFdiv] on the decoded operands
    ([div_spec]); dividing a normalised mantissa by 2^20 is exact. *)

Lemma digits2_pos_iter_xO p k :
  digits2_pos (Pos.iter xO p k) = (digits2_pos p + k)%positive.
Proof.
  induction k using Pos.peano_ind.
  - simpl. lia.
  - rewrite Pos.iter_succ. simpl. rewrite IHk. lia.
Qed.

Lemma Zpos_iter_xO p k : Z.pos (Pos.iter xO p k) = Z.pos p * 2 ^ Z.pos k.
Proof.
  induction k using Pos.peano_ind.
  - simpl. lia.
  - rewrite Pos.iter_succ, (Pos2Z.inj_xO (Pos.iter xO p k)), IHk, Pos2Z.inj_succ, Z.pow_succ_r by lia.
    lia.
Qed.

Lemma digits2_pos_bounds p :
  2 ^ (Z.pos (digits2_pos p) - 1) <= Z.pos p < 2 ^ Z.pos (digits2_pos p).
Proof.
  induction p; simpl digits2_pos.
  - rewrite Pos2Z.inj_succ, (Pos2Z.inj_xI p).
    replace (Z.succ (Z.pos (digits2_pos p)) - 1) with (Z.succ (Z.pos (digits2_pos p) - 1)) by lia.
    rewrite !Z.pow_succ_r by lia.
    destruct IHp as [Ha Hb]. revert Ha Hb.
    generalize (2 ^ (Z.pos (digits2_pos p) - 1)) (2 ^ Z.pos (digits2_pos p)). lia.
  - rewrite Pos2Z.inj_succ, (Pos2Z.inj_xO p).
    replace (Z.succ (Z.pos (digits2_pos p)) - 1) with (Z.succ (Z.pos (digits2_pos p) - 1)) by lia.
    rewrite !Z.pow_succ_r by lia.
    destruct IHp as [Ha Hb]. revert Ha Hb.
    generalize (2 ^ (Z.pos (digits2_pos p) - 1)) (2 ^ Z.pos (digits2_pos p)). lia.
  - simpl. lia.
Qed.

Lemma binary_round_aux_exact s m e :
  Z.pos (digits2_pos m) = 53 -> -1074 <= e <= 971 ->
  binary_round_aux prec emax s (Z.pos m) e loc_Exact = S754_finite s m e.
Proof.
  intros Hd He. unfold binary_round_aux, shr_fexp, fexp, SpecFloat.emin, prec, emax.
  cbn [Zdigits2 shr_record_of_loc]. rewrite Hd.
  replace (Z.max (53 + e - 53) (3 - 1024 - 53) - e) with 0 by lia.
  cbn [shr shr_m loc_of_shr_record round_nearest_even Zdigits2]. rewrite Hd.
  replace (Z.max (53 + e - 53) (3 - 1024 - 53) - e) with 0 by lia.
  cbn [shr shr_m].
  destruct (e <=? 1024 - 53) eqn:E; [reflexivity|]. apply Z.leb_gt in E. lia.
Qed.

Lemma binary_round_aux_exact_double s m e :
  Z.pos (digits2_pos m) = 53 -> -1075 <= e <= 970 ->
  binary_round_aux prec emax s (Z.pos m~0) e loc_Exact = S754_finite s m (e + 1).
Proof.
  intros Hd He. unfold binary_round_aux, shr_fexp, fexp, SpecFloat.emin, prec, emax.
  cbn [Zdigits2 shr_record_of_loc digits2_pos]. rewrite Pos2Z.inj_succ, Hd.
  replace (Z.max (Z.succ 53 + e - 53) (3 - 1024 - 53) - e) with 1 by lia.
  cbn [shr SpecFloat.iter_pos shr_1 shr_m shr_r shr_s orb loc_of_shr_record
         round_nearest_even Zdigits2].
  rewrite Hd.
  replace (Z.max (53 + (e + 1) - 53) (3 - 1024 - 53) - (e + 1)) with 0 by lia.
  cbn [shr shr_m].
  destruct (e + 1 <=? 1024 - 53) eqn:E; [reflexivity|]. apply Z.leb_gt in E. lia.
Qed.

Lemma binary_normalize_pos p :
  Z.pos (digits2_pos p) <= 53 ->
  exists mz,
    binary_normalize prec emax (Z.pos p) 0 false =
      S754_finite false mz (Z.pos (digits2_pos p) - 53) /\
    Z.pos mz = Z.pos p * 2 ^ (53 - Z.pos (digits2_pos p)) /\
    Z.pos (digits2_pos mz) = 53.
Proof.
  intros Hd. unfold binary_normalize, binary_round, shl_align, fexp, SpecFloat.emin, prec, emax.
  replace (Z.max (Z.pos (digits2_pos p) + 0 - 53) (3 - 1024 - 53))
    with (Z.pos (digits2_pos p) - 53) by lia.
  destruct (Z.pos (digits2_pos p) - 53 - 0) as [|k|k] eqn:E; try lia.
  - exists p. assert (Hd' : Z.pos (digits2_pos p) = 53) by lia.
    split; [|split; [rewrite Hd'; simpl; lia | exact Hd']].
    rewrite Hd'.
    apply (binary_round_aux_exact false p (53 - 53)); [exact Hd' | lia].
  - exists (Pos.iter xO p k).
    assert (Hk : Z.pos (digits2_pos (Pos.iter xO p k)) = 53).
    { rewrite digits2_pos_iter_xO, Pos2Z.inj_add. lia. }
    split; [|split; [|exact Hk]].
    + apply binary_round_aux_exact; [exact Hk | lia].
    + rewrite Zpos_iter_xO. f_equal. f_equal. lia.
Qed.

Lemma SFdiv_pow2_20 mz ez :
  Z.pos (digits2_pos mz) = 53 -> -52 <= ez <= 0 ->
  SFdiv prec emax (S754_finite false mz ez)
    (S754_finite false 4503599627370496 (-32)) =
  S754_finite false mz (ez - 20).
Proof.
  intros Hd He. unfold SFdiv, SFdiv_core_binary.
  cbn [Zdigits2]. rewrite Hd.
  change (Z.pos (digits2_pos 4503599627370496)) with 53.
  unfold fexp, SpecFloat.emin, prec, emax.
  replace (Z.min (Z.max (53 + ez - (53 + -32) - 53) (3 - 1024 - 53)) (ez - -32))
    with (ez - 21) by lia.
  replace (ez - -32 - (ez - 21)) with 53 by lia.
  rewrite Z.shiftl_mul_pow2 by lia.
  pose proof (Z_div_mod (Z.pos mz * 2 ^ 53) (Z.pos 4503599627370496) ltac:(lia)) as Hdm.
  destruct (Z.div_eucl (Z.pos mz * 2 ^ 53) (Z.pos 4503599627370496)) as [q r].
  change (2 ^ 53) with 9007199254740992 in Hdm.
  assert (q = Z.pos mz~0 /\ r = 0) as [-> ->] by lia.
  cbn [xorb]. change (new_location (Z.pos 4503599627370496) 0) with loc_Exact.
  replace (ez - 20) with (ez - 21 + 1) by lia.
  apply binary_round_aux_exact_double; [exact Hd | lia].
Qed.

Lemma round_half_even_scale a b c :
  0 < b -> 0 < c -> round_half_even (a * c) (b * c) = round_half_even a b.
Proof.
  intros Hb Hc. unfold round_half_even.
  rewrite Z.div_mul_cancel_r, Z.mul_mod_distr_r by lia.
  pose proof (Z.mod_pos_bound a b Hb) as Hr.
  destruct (2 * (a mod b) <? b) eqn:E1.
  - apply Z.ltb_lt in E1.
    destruct (2 * (a mod b * c) <? b * c) eqn:E2; [reflexivity|].
    apply Z.ltb_ge in E2. nia.
  - apply Z.ltb_ge in E1.
    destruct (2 * (a mod b * c) <? b * c) eqn:E2; [apply Z.ltb_lt in E2; nia|].
    destruct (b <? 2 * (a mod b)) eqn:E3.
    + apply Z.ltb_lt in E3.
      destruct (b * c <? 2 * (a mod b * c)) eqn:E4; [reflexivity|].
      apply Z.ltb_ge in E4. nia.
    + apply Z.ltb_ge in E3.
      destruct (b * c <? 2 * (a mod b * c)) eqn:E4; [apply Z.ltb_lt in E4; nia|].
      reflexivity.
Qed.

Lemma Prim2SF_truediv_mb n :
  0 < n < 2 ^ 53 ->
  exists mz ez,
    Prim2SF (py_truediv n (1024 ^ 2)) = S754_finite false mz (ez - 20) /\
    -52 <= ez <= 0 /\
    Z.pos mz = n * 2 ^ (- ez).
Proof.
  intros Hn. destruct n as [|p|p]; try lia.
  pose proof (digits2_pos_bounds p) as Hb.
  assert (Hd : Z.pos (digits2_pos p) <= 53).
  { assert (2 ^ (Z.pos (digits2_pos p) - 1) < 2 ^ 53) as H by lia.
    apply Z.pow_lt_mono_r_iff in H; lia. }
  destruct (binary_normalize_pos p Hd) as (mz & Hnorm & Hval & Hdig).
  exists mz, (Z.pos (digits2_pos p) - 53).
  split; [|split; [lia | rewrite Hval; f_equal; f_equal; lia]].
  unfold py_truediv. rewrite div_spec. unfold of_Z at 1. rewrite Hnorm.
  rewrite Prim2SF_SF2Prim.
  - change (Prim2SF (of_Z (1024 ^ 2)))
      with (S754_finite false 4503599627370496 (-32)).
    apply SFdiv_pow2_20; [exact Hdig | lia].
  - unfold SpecFloat.valid_binary, bounded, canonical_mantissa, fexp,
      SpecFloat.emin, prec, emax.
    rewrite Hdig. apply andb_true_intro. split.
    + apply Z.eqb_eq. lia.
    + apply Z.leb_le. lia.
Qed.

Lemma to_mb_decimal n :
  0 <= n < 2 ^ 53 ->
  to_mb n = megabytes_2dp n.
Proof.
  intros Hn. destruct (Z.eq_dec n 0) as [->|Hnz]; [vm_compute; reflexivity|].
  destruct (Prim2SF_truediv_mb n ltac:(lia)) as (mz & ez & Hsf & Hez & Hmz).
  unfold to_mb, megabytes_2dp, py_round. rewrite Hsf.
  destruct (0 <=? ez - 20) eqn:E; [apply Z.leb_le in E; lia|].
  change (10 ^ 2) with 100. change (1024 ^ 2) with (2 ^ 20).
  rewrite Hmz.
  replace (n * 2 ^ (- ez) * 100) with (n * 100 * 2 ^ (- ez)) by lia.
  replace (- (ez - 20)) with (20 + - ez) by lia.
  rewrite Z.pow_add_r by lia.
  rewrite round_half_even_scale; [reflexivity | lia |].
  apply Z.pow_pos_nonneg; lia.
Qed.

(** Whole and fractional sizes; 0.125 MB is a tie and goes to the even
    neighbour, 0.12, as [round(0.125, 2)] does. *)
Example to_mb_samples :
  to_mb 0 = 0%float /\
  to_mb 1048576 = 1%float /\
  to_mb 1572864 = 1.5%float /\
  to_mb 1310720 = 1.25%float /\
  to_mb 131072 = (of_Z 12 / of_Z 100)%float /\
  to_mb 123456789 = (of_Z 11774 / of_Z 100)%float /\
  to_mb 17179869184 = 16384%float.
Proof. repeat split; vm_compute; reflexivity. Qed.



(** ** CPU frequency *)

(** C6, as stated, fails: when [psutil.cpu_freq()] reports nothing, the
    three frequency keys are in the 'cpu' record all the same, bound to
    [None]. *)
Lemma cpu_frequency_keys_present_when_unreported :
  ~ (forall w s s' ps config record,
       psutil w = Some ps ->
       cpu_freq ps = Returns None ->
       gather_info w s = (s', Ok config) ->
       dict_get config "cpu" = Some (VDict record) ->
       dict_get record "max_frequency_mhz" = None /\
       dict_get record "min_frequency_mhz" = None /\
       dict_get record "current_frequency_mhz" = None).
Proof.
  intros H.
  destruct (H Sample.host (initial ∅) _ Sample.metrics _ _
              eq_refl eq_refl eq_refl eq_refl) as (Hmax & _).
  discriminate Hmax.
Qed.

(** C6, amended.  The 'cpu' record always has its six keys.  When
    [psutil.cpu_freq()] reports nothing and the other CPU queries return,
    the keys max_frequency_mhz, min_frequency_mhz and current_frequency_mhz
    are present and each is bound to [None]. *)
Theorem cpu_frequency_null_when_unreported w s ps :
  psutil w = Some ps ->
  platform_available w -> clock_available w ->
  exists config s',
    gather_info w s = (s', Ok config) /\
    (forall record,
       dict_get config "cpu" = Some (VDict record) ->
       dict_keys record =
         ["physical_cores"; "total_cores"; "max_frequency_mhz";
          "min_frequency_mhz"; "current_frequency_mhz"; "cpu_usage_percent"]) /\
    (cpu_freq ps = Returns None ->
     returns (cpu_count ps false) -> returns (cpu_count ps true) ->
     returns (cpu_percent ps 1) ->
     exists record,
       dict_get config "cpu" = Some (VDict record) /\
       dict_get record "max_frequency_mhz" = Some VNone /\
       dict_get record "min_frequency_mhz" = Some VNone /\
       dict_get record "current_frequency_mhz" = Some VNone).
Proof.
  intros Hps Hp Hc.
  destruct (gather_info_available w s Hp Hc)
    as (a1 & a2 & a3 & a4 & a5 & a6 & Hrun).
  eexists _, _. split; [exact Hrun|]. split.
  - intros record. simpl. unfold metrics_value, cpu_value, error_value.
    rewrite Hps.
    destruct (cpu_freq ps), (cpu_count ps false), (cpu_count ps true),
      (cpu_percent ps 1); intros H; inversion H; reflexivity.
  - intros Hf H1 H2 H3. apply returns_inv in H1, H2, H3.
    destruct H1 as [pc H1], H2 as [tc H2], H3 as [u H3].
    simpl. unfold metrics_value, cpu_value.
    rewrite Hps, Hf, H1, H2, H3.
    eexists. split; [reflexivity|]. repeat split.
Qed.

Lemma cpu_frequency_null_when_unreported_witness :
  exists config s' record,
    gather_info Sample.host (initial ∅) = (s', Ok config) /\
    dict_get config "cpu" = Some (VDict record) /\
    dict_get record "max_frequency_mhz" = Some VNone /\
    dict_get record "min_frequency_mhz" = Some VNone /\
    dict_get record "current_frequency_mhz" = Some VNone.
Proof.
  destruct (cpu_frequency_null_when_unreported Sample.host (initial ∅)
              Sample.metrics eq_refl)
    as (config & s' & Hrun & _ & Hnull);
    [vm_compute; tauto | vm_compute; exact I |].
  destruct Hnull as (record & Hrecord & Hkeys);
    [reflexivity | exact I | exact I | exact I |].
  exists config, s', record. split; [exact Hrun|]. split; [exact Hrecord|].
  exact Hkeys.
Defined.

(** ** Writing the file *)

(** What [write_config] does, in one equation: it opens the path, dumps and
    closes when the path opened, prints one line, touches no file but the
    one at [path], and returns. *)
Lemma write_config_run w config path s :
  write_config w config path s =
    ({| st_trace :=
          st_trace s ++
          CallOpen path ::
          match open_w w path with
          | Returns _ => [CallYamlDump path; CallClose path]
          | Raises _ => []
          end;
        st_stdout :=
          st_stdout s ++
          [match write_fault w config path with
           | Some e => "Failed to write configuration file: " +:+ exn_str e
           | None => "Configuration file successfully saved to " +:+ path
           end];
        st_files :=
          match open_w w path with
          | Returns _ => <[path := dumped_text (yaml_dump w config)]> (st_files s)
          | Raises _ => st_files s
          end |},
     Ok tt).
Proof.
  unfold write_config, write_fault, with_open_w, dump_to, file_write, truncate.
  unfold try_except, bind, call, lift, print, log. simpl.
  destruct (open_w w path) as [u|e]; simpl; [|reflexivity].
  rewrite lookup_insert_eq, insert_insert_eq. simpl.
  destruct (dumped_outcome (yaml_dump w config)) as [u1|e1],
    (file_close w path) as [u2|e2]; simpl;
    rewrite <- ?app_assoc; reflexivity.
Qed.

(** The three stages behind [write_fault]. *)
Lemma write_fault_stages w config path e :
  write_fault w config path = Some e <->
  open_w w path = Raises e \/
  (returns (open_w w path) /\ file_close w path = Raises e) \/
  (returns (open_w w path) /\ returns (file_close w path) /\
   dumped_outcome (yaml_dump w config) = Raises e).
Proof.
  unfold write_fault.
  destruct (open_w w path) as [u0|e0], (file_close w path) as [u1|e1],
    (dumped_outcome (yaml_dump w config)) as [u2|e2]; simpl; split;
    intros H; try discriminate;
    repeat match goal with
      | H : _ \/ _ |- _ => destruct H
      | H : _ /\ _ |- _ => destruct H
      | H : False |- _ => destruct H
      | H : Some _ = Some _ |- _ => inversion H; subst; clear H
      | H : Raises _ = Raises _ |- _ => inversion H; subst; clear H
      end;
    try discriminate; auto 10.
Qed.

(** ** The entry point *)

(** The path [main] writes to: [sys.argv[1]] when there is one. *)
Lemma output_file_resolved (argv : list string) s :
  (if (1 <? length argv)%nat then argv_index argv 1
   else ret default_output_file) s =
    (s, Ok (default default_output_file (argv !! 1%nat))).
Proof. destruct argv as [|a0 [|a1 rest]]; reflexivity. Qed.

Lemma main_run w argv s s1 config :
  gather_info w s = (s1, Ok config) ->
  main w argv s =
    write_config w config (default default_output_file (argv !! 1%nat)) s1.
Proof.
  intros Hrun. unfold main, try_except, bind at 1. rewrite Hrun.
  unfold bind. rewrite output_file_resolved, write_config_run. reflexivity.
Qed.

Lemma run_with_yaml w argv files :
  yaml_importable w = true -> run w argv files = main w argv (initial files).
Proof.
  intros H. unfold run, script, bind. rewrite H. simpl.
  destruct (main w argv (initial files)) as [s [u|e|c]]; reflexivity.
Qed.

Lemma psutil_calls_all w c :
  In c (psutil_calls w) -> is_psutil_call c = true.
Proof.
  unfold psutil_calls, metrics_calls.
  destruct (psutil w) as [ps|]; [|intros []].
  rewrite !in_app_iff. intros [H|[H|[H|H]]].
  - unfold cpu_calls in H.
    destruct (cpu_freq ps), (cpu_count ps false), (cpu_count ps true);
      simpl in H; intuition (subst; reflexivity).
  - simpl in H; intuition (subst; reflexivity).
  - unfold disk_calls in H. destruct H as [<-|H]; [reflexivity|].
    destruct (disk_partitions ps); [|destruct H].
    apply in_map_iff in H. destruct H as (p & <- & _). reflexivity.
  - simpl in H; intuition (subst; reflexivity).
Qed.

(** A run on a host where yaml, the platform and the clock are there: the
    snapshot is gathered, then written to the resolved path. *)
Lemma run_gathers_then_writes w argv files :
  yaml_importable w = true ->
  platform_available w -> clock_available w ->
  exists config s1,
    gather_info w (initial files) = (s1, Ok config) /\
    st_stdout s1 = [] /\
    st_files s1 = files /\
    (forall path, ~ In (CallOpen path) (st_trace s1)) /\
    run w argv files =
      write_config w config (default default_output_file (argv !! 1%nat)) s1.
Proof.
  intros Hy Hp Hc.
  destruct (gather_info_available w (initial files) Hp Hc)
    as (a1 & a2 & a3 & a4 & a5 & a6 & Hrun).
  eexists _, _. split; [exact Hrun|].
  split; [reflexivity|]. split; [reflexivity|]. split.
  - intros path Hin.
    unfold extend, initial in Hin. cbn [st_trace] in Hin.
    rewrite !in_app_iff in Hin.
    destruct Hin as [[]|[Hin|[Hin|Hin]]].
    + simpl in Hin. destruct Hin as [?|[?|[?|[?|[?|[]]]]]]; discriminate.
    + apply psutil_calls_all in Hin. discriminate.
    + simpl in Hin. destruct Hin as [?|[?|[]]]; discriminate.
  - rewrite (run_with_yaml w argv files Hy).
    now apply main_run.
Qed.



(** C8. When PyYAML cannot be imported, the script prints the notice and
    exits with status 1 at once: no data source was queried, no file was
    opened. *)
Theorem missing_yaml_exits_before_collection w argv files :
  yaml_importable w = false ->
  run w argv files =
    ({| st_trace := [];
        st_stdout :=
          ["PyYAML is not installed. Please install it using 'pip install PyYAML'"];
        st_files := files |},
     Exit 1) /\
  exit_status (snd (run w argv files)) = 1 /\
  exit_status (snd (run w argv files)) <> 0.
Proof.
  intros H. unfold run, script, bind, print, sys_exit. rewrite H. simpl.
  repeat split. discriminate.
Qed.

Lemma missing_yaml_exits_before_collection_witness :
  st_trace (fst (run (Sample.without_yaml Sample.host)
                   ["sysconfig_windows.py"; "out.yaml"] ∅)) = [] /\
  exit_status (snd (run (Sample.without_yaml Sample.host)
                      ["sysconfig_windows.py"; "out.yaml"] ∅)) = 1.
Proof.
  destruct (missing_yaml_exits_before_collection
              (Sample.without_yaml Sample.host)
              ["sysconfig_windows.py"; "out.yaml"] ∅ eq_refl)
    as (Hrun & Hexit & _).
  split; [now rewrite Hrun | exact Hexit].
Defined.

(** C9. Without a positional argument the snapshot goes to
    'system_config.yaml'; with the one argument 'out.yaml' it goes to
    'out.yaml', and 'system_config.yaml' is neither opened nor changed. *)
Theorem output_path_from_command_line w prog files :
  yaml_importable w = true ->
  platform_available w -> clock_available w ->
  exists config s1,
    gather_info w (initial files) = (s1, Ok config) /\
    In (CallOpen "system_config.yaml") (st_trace (fst (run w [prog] files))) /\
    (returns (open_w w "system_config.yaml") ->
     st_files (fst (run w [prog] files)) =
       <["system_config.yaml" := dumped_text (yaml_dump w config)]> files) /\
    (write_fault w config "system_config.yaml" = None ->
     st_stdout (fst (run w [prog] files)) =
       ["Configuration file successfully saved to system_config.yaml"]) /\
    In (CallOpen "out.yaml") (st_trace (fst (run w [prog; "out.yaml"] files))) /\
    (returns (open_w w "out.yaml") ->
     st_files (fst (run w [prog; "out.yaml"] files)) =
       <["out.yaml" := dumped_text (yaml_dump w config)]> files) /\
    (write_fault w config "out.yaml" = None ->
     st_stdout (fst (run w [prog; "out.yaml"] files)) =
       ["Configuration file successfully saved to out.yaml"]) /\
    ~ In (CallOpen "system_config.yaml")
        (st_trace (fst (run w [prog; "out.yaml"] files))) /\
    st_files (fst (run w [prog; "out.yaml"] files)) !! "system_config.yaml" =
      files !! "system_config.yaml".
Proof.
  intros Hy Hp Hc.
  destruct (run_gathers_then_writes w [prog] files Hy Hp Hc)
    as (config & s1 & Hrun & Hout & Hfiles & Hopen & Hmain0).
  destruct (run_gathers_then_writes w [prog; "out.yaml"] files Hy Hp Hc)
    as (config' & s1' & Hrun' & _ & _ & _ & Hmain1).
  rewrite Hrun in Hrun'. inversion Hrun'; subst config' s1'. clear Hrun'.
  exists config, s1. split; [exact Hrun|].
  change (default default_output_file ([prog] !! 1%nat))
    with "system_config.yaml" in Hmain0.
  change (default default_output_file ([prog; "out.yaml"] !! 1%nat))
    with "out.yaml" in Hmain1.
  rewrite Hmain0, Hmain1, !write_config_run.
  cbn [fst st_trace st_stdout st_files].
  rewrite Hout, Hfiles.
  split; [apply in_or_app; right; now left|].
  split; [intros Ho; destruct (open_w w "system_config.yaml");
          [reflexivity | destruct Ho]|].
  split; [intros Hf; now rewrite Hf|].
  split; [apply in_or_app; right; now left|].
  split; [intros Ho; destruct (open_w w "out.yaml");
          [reflexivity | destruct Ho]|].
  split; [intros Hf; now rewrite Hf|].
  split.
  - intros Hin. apply in_app_iff in Hin. destruct Hin as [Hin|Hin].
    + exact (Hopen _ Hin).
    + destruct Hin as [Hin|Hin]; [discriminate|].
      destruct (open_w w "out.yaml"); simpl in Hin;
        intuition discriminate.
  - destruct (open_w w "out.yaml"); [|reflexivity].
    now rewrite lookup_insert_ne.
Qed.

(** On the sample host, whose working directory holds an older
    'system_config.yaml'. *)
Lemma output_path_from_command_line_witness :
  st_files (fst (run Sample.host ["sysconfig_windows.py"]
                   {["system_config.yaml" := "old"]}))
    !! "system_config.yaml" <> Some "old" /\
  is_Some (st_files (fst (run Sample.host ["sysconfig_windows.py"; "out.yaml"]
                            {["system_config.yaml" := "old"]}))
             !! "out.yaml") /\
  st_files (fst (run Sample.host ["sysconfig_windows.py"; "out.yaml"]
                   {["system_config.yaml" := "old"]}))
    !! "system_config.yaml" = Some "old".
Proof.
  destruct (output_path_from_command_line Sample.host "sysconfig_windows.py"
              {["system_config.yaml" := "old"]} eq_refl)
    as (config & s1 & Hrun & _ & Hdefault & _ & _ & Hout & _ & _ & Hkept);
    [vm_compute; tauto | vm_compute; exact I |].
  specialize (Hdefault I). specialize (Hout I).
  inversion Hrun; subst config. clear Hrun.
  split; [|split].
  - rewrite Hdefault, lookup_insert_eq. discriminate.
  - rewrite Hout, lookup_insert_eq. eauto.
  - rewrite Hkept. apply lookup_singleton_eq.
Defined.

(** C10. With two or more arguments the run is the run with the first one
    alone: the path comes from [sys.argv[1]], which is the file the run
    opens, and neither the program name nor the further arguments matter. *)
Theorem extra_arguments_ignored w files prog a rest :
  run w (prog :: a :: rest) files = run w [prog; a] files /\
  (forall prog' rest',
     run w (prog' :: a :: rest') files = run w (prog :: a :: rest) files) /\
  (yaml_importable w = true ->
   platform_available w -> clock_available w ->
   In (CallOpen a) (st_trace (fst (run w (prog :: a :: rest) files))) /\
   forall path, In (CallOpen path) (st_trace (fst (run w (prog :: a :: rest) files))) ->
     path = a).
Proof.
  split; [reflexivity|]. split; [reflexivity|].
  intros Hy Hp Hc.
  destruct (run_gathers_then_writes w (prog :: a :: rest) files Hy Hp Hc)
    as (config & s1 & Hrun & _ & _ & Hopen & Hmain).
  change (default default_output_file ((prog :: a :: rest) !! 1%nat)) with a
    in Hmain.
  rewrite Hmain, write_config_run.
  cbn [fst st_trace]. split.
  - apply in_or_app; right; now left.
  - intros path Hin. apply in_app_iff in Hin. destruct Hin as [Hin|Hin].
    + destruct (Hopen _ Hin).
    + destruct Hin as [Hin|Hin]; [now inversion Hin|].
      destruct (open_w w a); simpl in Hin; intuition discriminate.
Qed.

Lemma extra_arguments_ignored_witness :
  run Sample.host ["sysconfig_windows.py"; "out.yaml"; "extra.yaml"; "--force"] ∅ =
    run Sample.host ["sysconfig_windows.py"; "out.yaml"] ∅ /\
  In (CallOpen "out.yaml")
    (st_trace (fst (run Sample.host
                      ["sysconfig_windows.py"; "out.yaml"; "extra.yaml"; "--force"] ∅))) /\
  ~ In (CallOpen "extra.yaml")
      (st_trace (fst (run Sample.host
                        ["sysconfig_windows.py"; "out.yaml"; "extra.yaml"; "--force"] ∅))).
Proof.
  destruct (extra_arguments_ignored Sample.host ∅ "sysconfig_windows.py"
              "out.yaml" ["extra.yaml"; "--force"]) as (Heq & _ & Hopen).
  destruct Hopen as (Hin & Honly);
    [reflexivity | vm_compute; tauto | vm_compute; exact I |].
  split; [exact Heq|]. split; [exact Hin|].
  intros Hextra. apply Honly in Hextra. discriminate.
Defined.

(** * Further properties of the script *)

(** ** Dictionaries built by a loop *)

Lemma dict_get_app_fresh (d : dict) k v k' :
  dict_get d k' = None -> k <> k' -> dict_get (d ++ [(k, v)]) k' = None.
Proof.
  intros Hd Hne. induction d as [|[k0 v0] d IH]; simpl in *.
  - destruct (String.eqb k k') eqn:E; [|reflexivity].
    apply String.eqb_eq in E. contradiction.
  - destruct (String.eqb k0 k'); [discriminate | auto].
Qed.

(** Inserting pairwise distinct fresh keys one by one appends them in
    order. *)
Lemma dict_set_fold_distinct {A} (key : A -> string) (val : A -> value) items :
  forall d,
    NoDup (map key items) ->
    (forall x, In x items -> dict_get d (key x) = None) ->
    fold_left (fun d x => dict_set d (key x) (val x)) items d =
      d ++ map (fun x => (key x, val x)) items.
Proof.
  induction items as [|x rest IH]; intros d Hnd Hfresh; simpl.
  - now rewrite app_nil_r.
  - apply NoDup_cons in Hnd. destruct Hnd as [Hx Hnd].
    rewrite dict_set_fresh by (apply Hfresh; now left).
    rewrite IH; [now rewrite <- app_assoc | exact Hnd |].
    intros y Hy. apply dict_get_app_fresh; [apply Hfresh; now right|].
    intros Heq. apply Hx. rewrite Heq. apply list_elem_of_In.
    now apply in_map.
Qed.

Lemma dict_get_distinct {A} (key : A -> string) (val : A -> value) items x :
  NoDup (map key items) -> In x items ->
  dict_get (map (fun x => (key x, val x)) items) (key x) = Some (val x).
Proof.
  induction items as [|y rest IH]; intros Hnd Hin; [destruct Hin|].
  apply NoDup_cons in Hnd. destruct Hnd as [Hy Hnd]. simpl.
  destruct Hin as [->|Hin]; [now rewrite String.eqb_refl|].
  destruct (String.eqb (key y) (key x)) eqn:E; [|auto].
  apply String.eqb_eq in E. exfalso. apply Hy. rewrite E.
  apply list_elem_of_In. now apply in_map.
Qed.

Lemma net_loop_fold interfaces :
  forall net_info,
    net_loop interfaces net_info =
      fold_left
        (fun d ia => dict_set d (fst ia) (VList (map addr_record (snd ia))))
        interfaces net_info.
Proof.
  induction interfaces as [|[interface addrs] rest IH]; intros net_info;
    simpl; [reflexivity|].
  now rewrite IH, addr_loop_map.
Qed.

(** ** The network and environment sections *)

(** X1. With psutil, the 'network' value is a mapping with one key per
    interface, in the order psutil enumerates them; under each name is the
    sequence of that interface's address records, in order, with the family
    as a string and [None] for every field psutil left empty. *)
Theorem network_section_records w s ps
    (interfaces : list (string * list snicaddr)) :
  psutil w = Some ps ->
  net_if_addrs ps = Returns interfaces ->
  NoDup (map fst interfaces) ->
  platform_available w -> clock_available w ->
  exists config s' net_info,
    gather_info w s = (s', Ok config) /\
    dict_get config "network" = Some (VDict net_info) /\
    dict_keys net_info = map fst interfaces /\
    forall interface addrs,
      In (interface, addrs) interfaces ->
      dict_get net_info interface =
        Some (VList
                (map (fun addr =>
                        VDict
                          [("family", VStr (family_str addr));
                           ("address", opt_str (address addr));
                           ("netmask", opt_str (netmask addr));
                           ("broadcast", opt_str (broadcast addr));
                           ("ptp", opt_str (ptp addr))])
                   addrs)).
Proof.
  intros Hps Hnet Hnd Hp Hc.
  destruct (gather_info_available w s Hp Hc)
    as (a1 & a2 & a3 & a4 & a5 & a6 & Hrun).
  eexists _, _, _. split; [exact Hrun|]. split.
  - simpl. unfold metrics_value, network_value. rewrite Hps, Hnet.
    rewrite net_loop_fold.
    rewrite (dict_set_fold_distinct fst
               (fun ia => VList (map addr_record (snd ia)))) by
      (auto; intros; reflexivity).
    reflexivity.
  - split.
    + unfold dict_keys. simpl. rewrite map_map. reflexivity.
    + intros interface addrs Hin. simpl.
      apply (dict_get_distinct fst
               (fun ia => VList (map addr_record (snd ia)))
               interfaces (interface, addrs) Hnd Hin).
Qed.

Lemma network_section_records_witness :
  exists config s' net_info,
    gather_info Sample.host (initial ∅) = (s', Ok config) /\
    dict_get config "network" = Some (VDict net_info) /\
    dict_get net_info "Loopback Pseudo-Interface 1" =
      Some (VList
              [VDict
                 [("family", VStr "AddressFamily.AF_INET");
                  ("address", VStr "127.0.0.1");
                  ("netmask", VStr "255.0.0.0");
                  ("broadcast", VNone);
                  ("ptp", VNone)]]).
Proof.
  destruct (network_section_records Sample.host (initial ∅) Sample.metrics
              [("Loopback Pseudo-Interface 1", [Sample.loopback])]
              eq_refl eq_refl)
    as (config & s' & net_info & Hrun & Hnet & _ & Hrec);
    [apply (bool_decide_unpack _); vm_compute; exact I
    | vm_compute; tauto | vm_compute; exact I |].
  exists config, s', net_info. split; [exact Hrun|]. split; [exact Hnet|].
  apply (Hrec _ [Sample.loopback]). now left.
Defined.

(** X2. The 'environment' value is a mapping with one key per variable of
    the process environment, in its order, each bound to the variable's
    value as a string; psutil plays no part in it. *)
Theorem environment_section_variables w s (environ : list (string * string)) :
  os_environ w = Returns environ ->
  NoDup (map fst environ) ->
  platform_available w -> clock_available w ->
  exists config s' variables,
    gather_info w s = (s', Ok config) /\
    dict_get config "environment" = Some (VDict variables) /\
    dict_keys variables = map fst environ /\
    length variables = length environ /\
    forall name v, In (name, v) environ ->
      dict_get variables name = Some (VStr v).
Proof.
  intros Henv Hnd Hp Hc.
  destruct (gather_info_available w s Hp Hc)
    as (a1 & a2 & a3 & a4 & a5 & a6 & Hrun).
  eexists _, _, _. split; [exact Hrun|]. split.
  - simpl. unfold environment_value, dict_of_environ. rewrite Henv.
    rewrite (dict_set_fold_distinct fst (fun kv => VStr (snd kv))) by
      (auto; intros; reflexivity).
    reflexivity.
  - split; [|split].
    + unfold dict_keys. simpl. rewrite map_map. reflexivity.
    + simpl. apply length_map.
    + intros name v Hin. simpl.
      apply (dict_get_distinct fst (fun kv => VStr (snd kv))
               environ (name, v) Hnd Hin).
Qed.

Lemma environment_section_variables_witness :
  exists config s' variables,
    gather_info Sample.bare_host (initial ∅) = (s', Ok config) /\
    dict_get config "environment" = Some (VDict variables) /\
    dict_keys variables = ["OS"; "USERNAME"] /\
    dict_get variables "USERNAME" = Some (VStr "admin").
Proof.
  destruct (environment_section_variables Sample.bare_host (initial ∅)
              [("OS", "Windows_NT"); ("USERNAME", "admin")] eq_refl)
    as (config & s' & variables & Hrun & Henv & Hkeys & _ & Hvar);
    [apply (bool_decide_unpack _); vm_compute; exact I
    | vm_compute; tauto | vm_compute; exact I |].
  exists config, s', variables. split; [exact Hrun|]. split; [exact Henv|].
  split; [exact Hkeys|]. apply Hvar. right. now left.
Defined.

(** ** The CPU section *)

(** X3. When the four CPU queries return, the 'cpu' record holds the
    physical and the logical core count ([None] when psutil cannot tell),
    each frequency key the field of its own name from the one
    [cpu_freq()] reading, and the utilization sample. *)
Theorem cpu_section_record w s ps freq physical total usage :
  psutil w = Some ps ->
  cpu_freq ps = Returns (Some freq) ->
  cpu_count ps false = Returns physical ->
  cpu_count ps true = Returns total ->
  cpu_percent ps 1 = Returns usage ->
  platform_available w -> clock_available w ->
  exists config s',
    gather_info w s = (s', Ok config) /\
    dict_get config "cpu" =
      Some (VDict
              [("physical_cores",
                match physical with Some n => VInt n | None => VNone end);
               ("total_cores",
                match total with Some n => VInt n | None => VNone end);
               ("max_frequency_mhz", VFloat (freq_max freq));
               ("min_frequency_mhz", VFloat (freq_min freq));
               ("current_frequency_mhz", VFloat (freq_current freq));
               ("cpu_usage_percent", VFloat usage)]).
Proof.
  intros Hps Hf H1 H2 H3 Hp Hc.
  destruct (gather_info_available w s Hp Hc)
    as (a1 & a2 & a3 & a4 & a5 & a6 & Hrun).
  eexists _, _. split; [exact Hrun|].
  simpl. unfold metrics_value, cpu_value. rewrite Hps, Hf, H1, H2, H3.
  reflexivity.
Qed.

Lemma cpu_section_record_witness :
  exists config s',
    gather_info Faulty.laptop (initial ∅) = (s', Ok config) /\
    dict_get config "cpu" =
      Some (VDict
              [("physical_cores", VNone);
               ("total_cores", VInt 8);
               ("max_frequency_mhz", VFloat 3600);
               ("min_frequency_mhz", VFloat 800);
               ("current_frequency_mhz", VFloat 1800);
               ("cpu_usage_percent", VFloat 12.5)]).
Proof.
  apply (cpu_section_record Faulty.laptop (initial ∅) Faulty.laptop_metrics
           {| freq_current := 1800; freq_min := 800; freq_max := 3600 |}
           None (Some 8) 12.5%float);
    try reflexivity; vm_compute; tauto.
Defined.

Lemma cpu_calls_percent ps i :
  In (CallCpuPercent i) (cpu_calls ps) <->
  i = 1 /\ returns (cpu_freq ps) /\ returns (cpu_count ps false) /\
  returns (cpu_count ps true).
Proof.
  unfold cpu_calls.
  destruct (cpu_freq ps), (cpu_count ps false), (cpu_count ps true); simpl;
    split; intros H;
    repeat match goal with
      | H : _ \/ _ |- _ => destruct H
      | H : _ /\ _ |- _ => destruct H
      | H : False |- _ => destruct H
      | H : CallCpuPercent _ = CallCpuPercent _ |- _ => inversion H; clear H
      end;
    try discriminate; subst; auto 10.
Qed.

(** X4. The blocking utilization sample is taken with [interval=1], and
    only once the frequency and the two core counts were read: a fault in
    one of them skips it.  Without psutil it is never taken. *)
Theorem cpu_sample_after_queries w s :
  platform_available w -> clock_available w ->
  exists config s' t,
    gather_info w s = (s', Ok config) /\
    st_trace s' = st_trace s ++ t /\
    (forall interval,
       In (CallCpuPercent interval) t <->
       interval = 1 /\
       exists ps,
         psutil w = Some ps /\ returns (cpu_freq ps) /\
         returns (cpu_count ps false) /\ returns (cpu_count ps true)).
Proof.
  intros Hp Hc.
  destruct (gather_info_available w s Hp Hc)
    as (a1 & a2 & a3 & a4 & a5 & a6 & Hrun).
  eexists _, _, _. split; [exact Hrun|]. split; [reflexivity|].
  intros interval. rewrite !in_app_iff. split.
  - intros [H|[H|H]].
    + simpl in H. destruct H as [?|[?|[?|[?|[?|[]]]]]]; discriminate.
    + unfold psutil_calls, metrics_calls in H.
      destruct (psutil w) as [ps|]; [|destruct H].
      rewrite !in_app_iff in H. destruct H as [H|[H|[H|H]]].
      * apply cpu_calls_percent in H. destruct H as (-> & H).
        split; [reflexivity|]. exists ps. tauto.
      * simpl in H. destruct H as [?|[]]. discriminate.
      * unfold disk_calls in H. destruct H as [?|H]; [discriminate|].
        destruct (disk_partitions ps); [|destruct H].
        apply in_map_iff in H. destruct H as (p & ? & _). discriminate.
      * simpl in H. destruct H as [?|[]]. discriminate.
    + simpl in H. destruct H as [?|[?|[]]]; discriminate.
  - intros (-> & ps & Hps & H).
    right. left. unfold psutil_calls, metrics_calls. rewrite Hps.
    apply in_or_app. left. apply cpu_calls_percent. tauto.
Qed.

(** On the degraded sample host the sample itself raised, so it was taken;
    without psutil it is not. *)
Lemma cpu_sample_after_queries_witness :
  In (CallCpuPercent 1)
    (st_trace (fst (gather_info Sample.degraded_host (initial ∅)))) /\
  ~ In (CallCpuPercent 1)
      (st_trace (fst (gather_info Sample.bare_host (initial ∅)))).
Proof.
  split.
  - destruct (cpu_sample_after_queries Sample.degraded_host (initial ∅))
      as (config & s' & t & Hrun & Ht & Hiff);
      [vm_compute; tauto | vm_compute; exact I |].
    rewrite Hrun. simpl. rewrite Ht. apply in_or_app. right.
    apply Hiff. split; [reflexivity|].
    exists Sample.degraded_metrics. repeat split.
  - destruct (cpu_sample_after_queries Sample.bare_host (initial ∅))
      as (config & s' & t & Hrun & Ht & Hiff);
      [vm_compute; tauto | vm_compute; exact I |].
    rewrite Hrun. simpl. rewrite Ht. simpl. intros Hin.
    apply Hiff in Hin. destruct Hin as (_ & ps & Hps & _). discriminate.
Defined.

(** ** The disk section's reads *)

Lemma filter_disk_cpu_calls ps : List.filter is_disk_call (cpu_calls ps) = [].
Proof.
  unfold cpu_calls.
  destruct (cpu_freq ps), (cpu_count ps false), (cpu_count ps true);
    reflexivity.
Qed.

Lemma filter_disk_usage_calls (partitions : list sdiskpart) :
  List.filter is_disk_call
    (map (fun p => CallDiskUsage (mountpoint p)) partitions) =
  map (fun p => CallDiskUsage (mountpoint p)) partitions.
Proof.
  induction partitions as [|p rest IH]; simpl; [reflexivity|].
  now rewrite IH.
Qed.

(** X5. With psutil, the disk section enumerates the partitions once and
    then reads the usage of each partition exactly once, in enumeration
    order, by its mount point; when the enumeration raises, no usage is
    read, and an empty enumeration gives the empty sequence. *)
Theorem disk_section_reads w s ps :
  psutil w = Some ps ->
  platform_available w -> clock_available w ->
  exists config s' t,
    gather_info w s = (s', Ok config) /\
    st_trace s' = st_trace s ++ t /\
    (forall partitions, disk_partitions ps = Returns partitions ->
       List.filter is_disk_call t =
         CallDiskPartitions ::
         map (fun p => CallDiskUsage (mountpoint p)) partitions) /\
    (forall e, disk_partitions ps = Raises e ->
       List.filter is_disk_call t = [CallDiskPartitions]) /\
    (disk_partitions ps = Returns [] ->
       dict_get config "disk" = Some (VList [])).
Proof.
  intros Hps Hp Hc.
  destruct (gather_info_available w s Hp Hc)
    as (a1 & a2 & a3 & a4 & a5 & a6 & Hrun).
  eexists _, _, _. split; [exact Hrun|]. split; [reflexivity|].
  assert (Hfilter :
    List.filter is_disk_call
      (platform_calls ++ psutil_calls w ++ [CallEnviron; CallNow]) =
    disk_calls ps).
  { unfold psutil_calls, metrics_calls. rewrite Hps.
    rewrite !List.filter_app, filter_disk_cpu_calls. simpl.
    rewrite app_nil_r. unfold disk_calls. f_equal.
    destruct (disk_partitions ps); [|reflexivity].
    rewrite ?app_nil_r. apply filter_disk_usage_calls. }
  split; [|split].
  - intros partitions Hparts. rewrite Hfilter. unfold disk_calls.
    now rewrite Hparts.
  - intros e He. rewrite Hfilter. unfold disk_calls. now rewrite He.
  - intros Hparts. simpl. unfold metrics_value, disk_value.
    now rewrite Hps, Hparts.
Qed.

Lemma disk_section_reads_witness :
  List.filter is_disk_call
    (st_trace (fst (gather_info Sample.host (initial ∅)))) =
    [CallDiskPartitions; CallDiskUsage "C:"; CallDiskUsage "D:";
     CallDiskUsage "E:"] /\
  exists config s',
    gather_info Faulty.laptop (initial ∅) = (s', Ok config) /\
    dict_get config "disk" = Some (VList []).
Proof.
  split.
  - destruct (disk_section_reads Sample.host (initial ∅) Sample.metrics eq_refl)
      as (config & s' & t & Hrun & Ht & Hreads & _);
      [vm_compute; tauto | vm_compute; exact I |].
    rewrite Hrun. simpl. rewrite Ht. simpl.
    exact (Hreads _ eq_refl).
  - destruct (disk_section_reads Faulty.laptop (initial ∅)
                Faulty.laptop_metrics eq_refl)
      as (config & s' & t & Hrun & _ & _ & _ & Hempty);
      [vm_compute; tauto | vm_compute; exact I |].
    exists config, s'. split; [exact Hrun | exact (Hempty eq_refl)].
Defined.

(** ** The 'os' record and the timestamp *)

(** X6. The 'os' record holds the five strings of the platform module under
    'system', 'release', 'version', 'machine', 'processor'; 'timestamp' is
    the string the clock gave, and the clock is the last thing
    [gather_info] reads. *)
Theorem os_record_and_timestamp w s system release version machine processor
    timestamp :
  platform_system (platform w) = Returns system ->
  platform_release (platform w) = Returns release ->
  platform_version (platform w) = Returns version ->
  platform_machine (platform w) = Returns machine ->
  platform_processor (platform w) = Returns processor ->
  datetime_now_isoformat w = Returns timestamp ->
  exists config s' t,
    gather_info w s = (s', Ok config) /\
    dict_get config "os" =
      Some (VDict
              [("system", VStr system);
               ("release", VStr release);
               ("version", VStr version);
               ("machine", VStr machine);
               ("processor", VStr processor)]) /\
    dict_get config "timestamp" = Some (VStr timestamp) /\
    st_trace s' = st_trace s ++ t ++ [CallNow] /\
    ~ In CallNow t.
Proof.
  intros H1 H2 H3 H4 H5 H6.
  exists [("os", VDict
                   [("system", VStr system);
                    ("release", VStr release);
                    ("version", VStr version);
                    ("machine", VStr machine);
                    ("processor", VStr processor)]);
          ("cpu", metrics_value cpu_value w);
          ("memory", metrics_value memory_value w);
          ("disk", metrics_value disk_value w);
          ("network", metrics_value network_value w);
          ("environment", environment_value w);
          ("timestamp", VStr timestamp)],
    (extend s (platform_calls ++ psutil_calls w ++ [CallEnviron; CallNow])),
    (platform_calls ++ psutil_calls w ++ [CallEnviron]).
  split; [now apply gather_info_run|].
  split; [reflexivity|]. split; [reflexivity|]. split.
  - simpl. now rewrite <- !app_assoc.
  - rewrite !in_app_iff. intros [H|[H|H]].
    + simpl in H. destruct H as [?|[?|[?|[?|[?|[]]]]]]; discriminate.
    + apply psutil_calls_all in H. discriminate.
    + simpl in H. destruct H as [?|[]]. discriminate.
Qed.

Lemma os_record_and_timestamp_witness :
  exists config s' t,
    gather_info Sample.host (initial ∅) = (s', Ok config) /\
    dict_get config "os" =
      Some (VDict
              [("system", VStr "Windows");
               ("release", VStr "10");
               ("version", VStr "10.0.19045");
               ("machine", VStr "AMD64");
               ("processor", VStr "Intel64 Family 6 Model 158")]) /\
    dict_get config "timestamp" = Some (VStr "2025-02-17T09:30:00.000000") /\
    st_trace s' = st_trace (initial ∅) ++ t ++ [CallNow] /\
    ~ In CallNow t.
Proof.
  apply (os_record_and_timestamp Sample.host (initial ∅)); reflexivity.
Defined.

(** ** Sizes too small to show *)

(** X7. A byte count of at most 5242 bytes, less than half a hundredth of a
    megabyte, is reported as 0.0; 5243 bytes are the first to show, as
    0.01. *)
Theorem to_mb_below_half_hundredth bytes :
  0 <= bytes <= 5242 ->
  to_mb bytes = 0%float /\ to_mb 5243 = (of_Z 1 / of_Z 100)%float.
Proof.
  intros Hb. split; [|vm_compute; reflexivity].
  rewrite to_mb_decimal by lia. unfold megabytes_2dp.
  assert (Hk : round_half_even (bytes * 100) (1024 ^ 2) = 0).
  { unfold round_half_even. change (1024 ^ 2) with 1048576.
    rewrite Z.div_small, Z.mod_small by lia.
    destruct (2 * (bytes * 100) <? 1048576) eqn:E; [reflexivity|].
    apply Z.ltb_ge in E. lia. }
  rewrite Hk. vm_compute. reflexivity.
Qed.

Lemma to_mb_below_half_hundredth_witness :
  to_mb 4096 = 0%float /\ to_mb 5243 = (of_Z 1 / of_Z 100)%float.
Proof. apply (to_mb_below_half_hundredth 4096). lia. Defined.

(** ** What collecting never does *)

Lemma platform_calls_not_file c :
  In c platform_calls -> is_file_call c = false.
Proof.
  simpl. intros [<-|[<-|[<-|[<-|[<-|[]]]]]]; reflexivity.
Qed.

Lemma psutil_call_not_file c : is_psutil_call c = true -> is_file_call c = false.
Proof. destruct c; simpl; congruence. Qed.

(** However it ends, [gather_info] only adds data-source calls to the trace,
    and it ends by returning or raising, never by leaving the interpreter. *)
Lemma gather_info_outcome w s :
  exists t r,
    gather_info w s = (extend s t, r) /\
    Forall (fun c => is_file_call c = false) t /\
    (platform_available w -> clock_available w -> exists config, r = Ok config) /\
    (forall config, r = Ok config -> platform_available w /\ clock_available w) /\
    (forall code, r <> Exit code).
Proof.
  destruct (platform_fault (platform w)) as [e|] eqn:F.
  - destruct (gather_info_platform_fault w s e F) as (t & Ht & Hin).
    exists t, (Raise e). split; [exact Ht|]. split; [|split; [|split]].
    + apply List.Forall_forall. intros c Hc.
      rewrite List.Forall_forall in Hin. now apply platform_calls_not_file, Hin.
    + intros Hp. apply platform_fault_none in Hp. congruence.
    + discriminate.
    + discriminate.
  - apply platform_fault_none in F. pose proof F as (H1 & H2 & H3 & H4 & H5).
    apply returns_inv in H1, H2, H3, H4, H5.
    destruct H1 as [a1 H1], H2 as [a2 H2], H3 as [a3 H3], H4 as [a4 H4],
      H5 as [a5 H5].
    eexists _, _. split;
      [exact (gather_info_platform_ok w s _ _ _ _ _ H1 H2 H3 H4 H5)|].
    split; [|split; [|split]].
    + apply List.Forall_forall. intros c Hc. rewrite !in_app_iff in Hc.
      destruct Hc as [Hc|[Hc|Hc]].
      * now apply platform_calls_not_file.
      * now apply psutil_call_not_file, (psutil_calls_all w).
      * simpl in Hc. destruct Hc as [<-|[<-|[]]]; reflexivity.
    + intros _ Hc. unfold clock_available in Hc.
      destruct (datetime_now_isoformat w); [eauto | destruct Hc].
    + intros config Hr. split; [exact F|]. unfold clock_available.
      destruct (datetime_now_isoformat w); [exact I | discriminate].
    + intros code. destruct (datetime_now_isoformat w); discriminate.
Qed.

(** X8. Whatever the host does, [gather_info] prints nothing, changes no
    file, opens, dumps and closes nothing, and keeps the calls made before
    it: it only reads. *)
Theorem gather_info_only_reads w s :
  st_stdout (fst (gather_info w s)) = st_stdout s /\
  st_files (fst (gather_info w s)) = st_files s /\
  exists t,
    st_trace (fst (gather_info w s)) = st_trace s ++ t /\
    Forall (fun c => is_file_call c = false) t.
Proof.
  destruct (gather_info_outcome w s) as (t & r & Hrun & Hno & _).
  rewrite Hrun. simpl. split; [reflexivity|]. split; [reflexivity|].
  exists t. split; [reflexivity | exact Hno].
Qed.

(** ** The outermost boundary *)

Lemma main_gather_raises w argv s s1 e :
  gather_info w s = (s1, Raise e) ->
  main w argv s =
    ({| st_trace := st_trace s1;
        st_stdout := st_stdout s1 ++ ["An error occurred: " +:+ exn_str e];
        st_files := st_files s1 |},
     Exit 1).
Proof.
  intros Hrun. unfold main, try_except, bind at 1. rewrite Hrun. reflexivity.
Qed.

Lemma run_without_yaml w argv files :
  yaml_importable w = false ->
  run w argv files =
    ({| st_trace := [];
        st_stdout :=
          ["PyYAML is not installed. Please install it using 'pip install PyYAML'"];
        st_files := files |},
     Exit 1).
Proof.
  intros H. unfold run, script, bind, print, sys_exit. rewrite H. reflexivity.
Qed.

(** The three ways a run can go. *)
Lemma run_cases w argv files :
  (yaml_importable w = false /\
   run w argv files =
     ({| st_trace := [];
         st_stdout :=
           ["PyYAML is not installed. Please install it using 'pip install PyYAML'"];
         st_files := files |},
      Exit 1)) \/
  (yaml_importable w = true /\
   ~ (platform_available w /\ clock_available w) /\
   exists t e,
     gather_info w (initial files) = (extend (initial files) t, Raise e) /\
     Forall (fun c => is_file_call c = false) t /\
     run w argv files =
       ({| st_trace := t;
           st_stdout := ["An error occurred: " +:+ exn_str e];
           st_files := files |},
        Exit 1)) \/
  (yaml_importable w = true /\
   platform_available w /\ clock_available w /\
   exists t config,
     gather_info w (initial files) = (extend (initial files) t, Ok config) /\
     Forall (fun c => is_file_call c = false) t /\
     run w argv files =
       write_config w config (default default_output_file (argv !! 1%nat))
         (extend (initial files) t)).
Proof.
  destruct (yaml_importable w) eqn:Hy.
  2:{ left. split; [reflexivity|]. now apply run_without_yaml. }
  right.
  destruct (gather_info_outcome w (initial files))
    as (t & r & Hrun & Hno & Hok & Hinv & Hexit).
  rewrite (run_with_yaml w argv files Hy).
  destruct r as [config|e|code].
  - right. split; [reflexivity|].
    destruct (Hinv config eq_refl) as [Hp Hc]. split; [exact Hp|].
    split; [exact Hc|]. exists t, config. split; [exact Hrun|].
    split; [exact Hno|]. now apply main_run.
  - left. split; [reflexivity|]. split.
    + intros [Hp Hc]. destruct (Hok Hp Hc) as [config Hr]. discriminate.
    + exists t, e. split; [exact Hrun|]. split; [exact Hno|].
      now rewrite (main_gather_raises w argv _ _ e Hrun).
  - now destruct (Hexit code).
Qed.

(** A fault of an unguarded section is the way [gather_info] ends. *)
Lemma gather_info_unguarded_fault w s :
  (forall e, platform_fault (platform w) = Some e ->
     snd (gather_info w s) = Raise e) /\
  (platform_available w ->
   forall e, datetime_now_isoformat w = Raises e ->
     snd (gather_info w s) = Raise e).
Proof.
  split.
  - intros e Hf. destruct (gather_info_platform_fault w s e Hf) as (t & Ht & _).
    now rewrite Ht.
  - intros (H1 & H2 & H3 & H4 & H5) e Hf.
    apply returns_inv in H1, H2, H3, H4, H5.
    destruct H1 as [a1 H1], H2 as [a2 H2], H3 as [a3 H3], H4 as [a4 H4],
      H5 as [a5 H5].
    rewrite (gather_info_platform_ok w s _ _ _ _ _ H1 H2 H3 H4 H5), Hf.
    reflexivity.
Qed.

(** X9. When the platform module or the clock raises, [main]'s outer
    handler takes over: the run prints "An error occurred: ..." with the
    fault, exits with status 1, and has neither opened nor changed any
    file. *)
Theorem collection_fault_exit_one w argv files e :
  yaml_importable w = true ->
  platform_fault (platform w) = Some e \/
  (platform_available w /\ datetime_now_isoformat w = Raises e) ->
  exists s',
    run w argv files = (s', Exit 1) /\
    exit_status (snd (run w argv files)) = 1 /\
    st_stdout s' = ["An error occurred: " +:+ exn_str e] /\
    st_files s' = files /\
    Forall (fun c => is_file_call c = false) (st_trace s').
Proof.
  intros Hy Hfault.
  assert (Hraise : snd (gather_info w (initial files)) = Raise e).
  { destruct (gather_info_unguarded_fault w (initial files))
      as [Hos Hclock].
    destruct Hfault as [Hf|[Hp Hf]]; [now apply Hos | now apply Hclock]. }
  destruct (gather_info_outcome w (initial files))
    as (t & r & Hrun & Hno & _).
  rewrite Hrun in Hraise. simpl in Hraise. subst r.
  rewrite (run_with_yaml w argv files Hy).
  rewrite (main_gather_raises w argv _ _ e Hrun).
  eexists. split; [reflexivity|]. split; [reflexivity|].
  split; [reflexivity|]. split; [reflexivity|]. exact Hno.
Qed.

Lemma collection_fault_exit_one_witness :
  exists s',
    run Sample.broken_clock ["sysconfig_windows.py"]
      {["system_config.yaml" := "old"]} = (s', Exit 1) /\
    st_stdout s' = ["An error occurred: clock unavailable"] /\
    st_files s' = {["system_config.yaml" := "old"]}.
Proof.
  destruct (collection_fault_exit_one Sample.broken_clock
              ["sysconfig_windows.py"] {["system_config.yaml" := "old"]}
              (Exn "clock unavailable") eq_refl)
    as (s' & Hrun & _ & Hout & Hfiles & _).
  - right. split; [vm_compute; tauto | reflexivity].
  - exists s'. split; [exact Hrun|]. split; [exact Hout | exact Hfiles].
Defined.



(** X11. A run opens at most one file, the one named by [sys.argv[1]] or,
    without it, 'system_config.yaml' (also when [sys.argv] is empty), and
    every other file keeps its content. *)
Theorem run_touches_only_output_file w argv files :
  (forall path,
     In (CallOpen path) (st_trace (fst (run w argv files))) ->
     path = default "system_config.yaml" (argv !! 1%nat)) /\
  (forall path,
     path <> default "system_config.yaml" (argv !! 1%nat) ->
     st_files (fst (run w argv files)) !! path = files !! path) /\
  (length (List.filter is_file_call (st_trace (fst (run w argv files)))) <= 3)%nat.
Proof.
  assert (Hfilter : forall t,
    Forall (fun c => is_file_call c = false) t ->
    List.filter is_file_call t = []).
  { induction t as [|c t IH]; intros Ht; [reflexivity|].
    apply List.Forall_cons_iff in Ht. destruct Ht as [Hc Ht].
    simpl. rewrite Hc. now apply IH. }
  assert (Hnotin : forall t path,
    Forall (fun c => is_file_call c = false) t -> ~ In (CallOpen path) t).
  { intros t path Ht Hin. rewrite List.Forall_forall in Ht.
    apply Ht in Hin. discriminate. }
  destruct (run_cases w argv files)
    as [(Hy & Hrun)|[(Hy & Hnot & t & e & _ & Hno & Hrun)
                    |(Hy & Hp & Hc & t & config & _ & Hno & Hrun)]];
    rewrite Hrun; cbn [fst st_trace st_files].
  - split; [intros path []|]. split; [reflexivity|]. simpl. lia.
  - split; [intros path Hin; now destruct (Hnotin t path Hno)|].
    split; [reflexivity|]. rewrite (Hfilter t Hno). simpl. lia.
  - rewrite write_config_run. cbn [fst st_trace st_files extend initial].
    change default_output_file with "system_config.yaml".
    set (out := default "system_config.yaml" (argv !! 1%nat)).
    split; [|split].
    + intros path Hin. simpl in Hin. apply in_app_iff in Hin.
      destruct Hin as [Hin|Hin]; [now destruct (Hnotin t path Hno)|].
      destruct Hin as [Hin|Hin]; [now inversion Hin|].
      destruct (open_w w out); simpl in Hin; intuition discriminate.
    + intros path Hne. destruct (open_w w out); [|reflexivity].
      rewrite lookup_insert_ne; [reflexivity | congruence].
    + simpl. rewrite List.filter_app, (Hfilter t Hno). simpl.
      destruct (open_w w out); simpl; lia.
Qed.

Lemma run_touches_only_output_file_witness :
  st_files (fst (run Sample.host [] {["notes.txt" := "keep"]}))
    !! "notes.txt" = Some "keep" /\
  ~ In (CallOpen "notes.txt")
      (st_trace (fst (run Sample.host [] {["notes.txt" := "keep"]}))).
Proof.
  destruct (run_touches_only_output_file Sample.host []
              {["notes.txt" := "keep"]}) as (Hopen & Hkeep & _).
  split.
  - rewrite (Hkeep "notes.txt"); [apply lookup_singleton_eq | discriminate].
  - intros Hin. apply Hopen in Hin. discriminate.
Defined.

(** ** What a failed write leaves behind *)

(** X12. When the destination cannot be opened, [write_config] leaves every
    file as it was.  Once it opened, the destination holds exactly the text
    that the serializer got out, whatever it held before and whether or not
    the dump or the close then raised: a failed write does not keep the old
    file. *)
Theorem write_config_file_outcome w config path s :
  (forall e, open_w w path = Raises e ->
     st_files (fst (write_config w config path s)) = st_files s) /\
  (returns (open_w w path) ->
   st_files (fst (write_config w config path s)) !! path =
     Some (dumped_text (yaml_dump w config))).
Proof.
  rewrite write_config_run. cbn [fst st_files]. split.
  - intros e He. now rewrite He.
  - intros Ho. destruct (open_w w path); [|destruct Ho].
    apply lookup_insert_eq.
Qed.

(** On the host whose volume fills up, the old snapshot is gone and the
    first line of the new one is all there is; on the read-only host the
    old snapshot stays. *)
Lemma write_config_file_outcome_witness :
  st_files (fst (run Faulty.full_disk_host ["sysconfig_windows.py"]
                   {["system_config.yaml" := "old snapshot"]}))
    !! "system_config.yaml" = Some "os:" /\
  st_files (fst (write_config Sample.read_only_host [] "system_config.yaml"
                   (initial {["system_config.yaml" := "old snapshot"]}))) =
    {["system_config.yaml" := "old snapshot"]}.
Proof.
  split.
  - destruct (run_cases Faulty.full_disk_host ["sysconfig_windows.py"]
                {["system_config.yaml" := "old snapshot"]})
      as [(Hy & _)|[(_ & Hnot & _)|(_ & _ & _ & t & config & _ & _ & Hrun)]].
    + discriminate Hy.
    + destruct Hnot. vm_compute. tauto.
    + rewrite Hrun.
      destruct (write_config_file_outcome Faulty.full_disk_host config
                  "system_config.yaml"
                  (extend (initial {["system_config.yaml" := "old snapshot"]}) t))
        as [_ Hopened].
      exact (Hopened I).
  - destruct (write_config_file_outcome Sample.read_only_host []
                "system_config.yaml"
                (initial {["system_config.yaml" := "old snapshot"]}))
      as [Hclosed _].
    exact (Hclosed (Exn "[Errno 13] Permission denied") eq_refl).
Defined.

(** ** The order of a run *)

(** X13. The destination is opened only when the snapshot is complete, the
    clock having been read last; once opened it is dumped into and then
    closed, also when the dump raises, and when it cannot be opened nothing
    is dumped or closed. *)
Theorem file_opened_last_and_closed w argv files :
  yaml_importable w = true ->
  platform_available w -> clock_available w ->
  exists t,
    Forall (fun c => is_file_call c = false) (t ++ [CallNow]) /\
    (returns (open_w w (default "system_config.yaml" (argv !! 1%nat))) ->
     st_trace (fst (run w argv files)) =
       t ++ [CallNow;
             CallOpen (default "system_config.yaml" (argv !! 1%nat));
             CallYamlDump (default "system_config.yaml" (argv !! 1%nat));
             CallClose (default "system_config.yaml" (argv !! 1%nat))]) /\
    (forall e,
       open_w w (default "system_config.yaml" (argv !! 1%nat)) = Raises e ->
       st_trace (fst (run w argv files)) =
         t ++ [CallNow;
               CallOpen (default "system_config.yaml" (argv !! 1%nat))]).
Proof.
  intros Hy Hp Hc.
  destruct (gather_info_available w (initial files) Hp Hc)
    as (a1 & a2 & a3 & a4 & a5 & a6 & Hrun).
  exists (platform_calls ++ psutil_calls w ++ [CallEnviron]).
  rewrite (run_with_yaml w argv files Hy), (main_run w argv _ _ _ Hrun).
  rewrite write_config_run. cbn [fst st_trace extend initial].
  change default_output_file with "system_config.yaml".
  set (out := default "system_config.yaml" (argv !! 1%nat)).
  split; [|split].
  - apply List.Forall_forall. intros c Hin. rewrite !in_app_iff in Hin.
    destruct Hin as [[Hin|[Hin|Hin]]|Hin].
    + now apply platform_calls_not_file.
    + now apply psutil_call_not_file, (psutil_calls_all w).
    + simpl in Hin. destruct Hin as [<-|[]]. reflexivity.
    + simpl in Hin. destruct Hin as [<-|[]]. reflexivity.
  - intros Ho. destruct (open_w w out); [|destruct Ho].
    simpl. now rewrite <- !app_assoc.
  - intros e He. rewrite He. simpl. now rewrite <- !app_assoc.
Qed.

Lemma file_opened_last_and_closed_witness :
  exists t,
    Forall (fun c => is_file_call c = false) (t ++ [CallNow]) /\
    st_trace (fst (run Faulty.full_disk_host
                     ["sysconfig_windows.py"; "out.yaml"] ∅)) =
      t ++ [CallNow; CallOpen "out.yaml"; CallYamlDump "out.yaml";
            CallClose "out.yaml"].
Proof.
  destruct (file_opened_last_and_closed Faulty.full_disk_host
              ["sysconfig_windows.py"; "out.yaml"] ∅ eq_refl)
    as (t & Hno & Hopened & _);
    [vm_compute; tauto | vm_compute; exact I |].
  exists t. split; [exact Hno | exact (Hopened I)].
Defined.

(** ** The line [write_config] prints *)


